(** * Tome: provider normalisation and the tool-calling dispatch loop

    A shallow embedding of the Anthropic adapter
    ([lib/engines/anthropic/client.ts], [message.ts], [tool.ts]), of the
    Gemini tool translation ([lib/engines/gemini/tool.ts]), of the engine
    registry ([lib/models/engine.svelte.ts]) and of the dispatch loop
    ([lib/dispatch.ts]), with the properties the specification states
    about them. *)

From Stdlib Require Import ZArith QArith Lqa List String Ascii Bool Lia Permutation.
From stdpp Require Import gmap strings.
Import ListNotations.

Set Warnings "-register-all".

Local Open Scope string_scope.
Local Open Scope list_scope.

(** ** JavaScript values *)

Module JS.

(** A [number]: an IEEE double.  The finite doubles are rationals, and
    the only operations the adapters apply to numbers are comparisons,
    which are exact; [NaN] and the infinities are kept apart. *)
Inductive number : Type :=
  | NaN
  | NegInf
  | Fin (q : Q)
  | PosInf.

Definition Qltb (x y : Q) : bool :=
  (Qnum x * Zpos (Qden y) <? Qnum y * Zpos (Qden x))%Z.

(** [a < b] of JavaScript: false as soon as one side is [NaN]. *)
Definition ltb (a b : number) : bool :=
  match a, b with
  | NaN, _ | _, NaN => false
  | _, NegInf => false
  | NegInf, _ => true
  | PosInf, _ => false
  | Fin _, PosInf => true
  | Fin x, Fin y => Qltb x y
  end.

Definition isNaN (a : number) : bool :=
  match a with NaN => true | _ => false end.

(** [Math.max] and [Math.min] on two arguments: [NaN] is contagious. *)
Definition Math_max (a b : number) : number :=
  if isNaN a || isNaN b then NaN else if ltb a b then b else a.

Definition Math_min (a b : number) : number :=
  if isNaN a || isNaN b then NaN else if ltb b a then b else a.

(** JSON-compatible values, as carried by tool arguments and by the
    opaque model metadata. *)
Inductive value : Type :=
  | JNull
  | JBool (b : bool)
  | JNum (x : number)
  | JStr (s : string)
  | JArr (items : list value)
  | JObj (fields : list (string * value)).

(** Truthiness, as [||], [&&], [if] and [||=] test it.  [undefined] is
    the [None] of an [option]. *)
Definition truthy_string (s : string) : bool := negb (s =? "")%string.

Definition truthy_number (x : number) : bool :=
  match x with
  | NaN => false
  | Fin q => negb (Qnum q =? 0)%Z
  | _ => true
  end.

Definition truthy (v : value) : bool :=
  match v with
  | JNull => false
  | JBool b => b
  | JNum x => truthy_number x
  | JStr s => truthy_string s
  | JArr _ | JObj _ => true
  end.

Definition truthy_opt {A} (t : A -> bool) (o : option A) : bool :=
  match o with Some a => t a | None => false end.

(** [o || d] on an optional string. *)
Definition or_string (o : option string) (d : string) : string :=
  match o with
  | Some s => if truthy_string s then s else d
  | None => d
  end.

(** [o ?? d]. *)
Definition nullish {A} (o : option A) (d : A) : A :=
  match o with Some a => a | None => d end.

(** [a === b] on optional strings. *)
Definition strict_eq (a b : option string) : bool :=
  match a, b with
  | Some x, Some y => (x =? y)%string
  | None, None => true
  | _, _ => false
  end.

(** Own-property lookup in an object literal. *)
Fixpoint assoc {A} (k : string) (fields : list (string * A)) : option A :=
  match fields with
  | [] => None
  | (k', v) :: rest => if (k =? k')%string then Some v else assoc k rest
  end.

(** The property names every object literal inherits from
    [Object.prototype]. *)
Definition Object_prototype : list string :=
  [ "constructor"; "hasOwnProperty"; "isPrototypeOf"; "propertyIsEnumerable";
    "toLocaleString"; "toString"; "valueOf"; "__proto__";
    "__defineGetter__"; "__defineSetter__"; "__lookupGetter__";
    "__lookupSetter__" ].

(** What [literal[key]] evaluates to on an object literal: the
    literal's own property; else the property of that name inherited
    from [Object.prototype], a function, or the prototype itself for
    [__proto__], truthy either way; else [undefined]. *)
Inductive Found (A : Type) : Type :=
  | Own (a : A)
  | Inherited (key : string)
  | Missing.
Arguments Own {A} a.
Arguments Inherited {A} key.
Arguments Missing {A}.

Definition get {A} (key : string) (fields : list (string * A)) : Found A :=
  match assoc key fields with
  | Some a => Own a
  | None =>
      if existsb (String.eqb key) Object_prototype
      then Inherited key else Missing
  end.

(** [o?.k]: [undefined] when [o] is nullish or has no such property. *)
Definition opt_get (k : string) (o : option value) : option value :=
  match o with
  | Some (JObj fields) => assoc k fields
  | _ => None
  end.

(** [s.includes(sub)]. *)
Fixpoint includes (sub s : string) : bool :=
  String.prefix sub s ||
  match s with
  | EmptyString => false
  | String _ rest => includes sub rest
  end.

(** [Array.prototype.find]. *)
Fixpoint find {A} (p : A -> bool) (l : list A) : option A :=
  match l with
  | [] => None
  | x :: rest => if p x then Some x else find p rest
  end.

(** [Array.prototype.flatMap]. *)
Definition flatMap {A B} (f : A -> list B) (l : list A) : list B :=
  List.concat (List.map f l).

(** [Array.prototype.join]. *)
Definition join (sep : string) (l : list string) : string :=
  String.concat sep l.

(** Modelled from the spec: [Array.prototype.compact] is an extension the
    repository installs outside these sources; the adapters use it to
    drop the [undefined] entries a message translation returns for a
    dropped turn. *)
Fixpoint compact {A} (l : list (option A)) : list A :=
  match l with
  | [] => []
  | Some a :: rest => a :: compact rest
  | None :: rest => compact rest
  end.

Definition nl : string := String (ascii_of_nat 10) EmptyString.

(** The two-newline separator the adapters join with. *)
Definition blank_line : string := nl ++ nl.

End JS.

(** ** Results of fallible calls *)

Inductive Result (A : Type) : Type :=
  | Ok (a : A)
  | Raise (err : string).
Arguments Ok {A} a.
Arguments Raise {A} err.

(** [try { body } catch { handler }]. *)
Definition try_catch {A} (body : Result A) (handler : string -> Result A)
  : Result A :=
  match body with
  | Ok a => Ok a
  | Raise e => handler e
  end.

(** ** The canonical model ([lib/engines/types.ts], [lib/models]) *)

Module Role.
Inductive t : Type :=
  | system | user | assistant | tool | function | developer | model.

Definition eqb (a b : t) : bool :=
  match a, b with
  | system, system | user, user | assistant, assistant | tool, tool
  | function, function | developer, developer | model, model => true
  | _, _ => false
  end.
End Role.

Record ToolCall : Type := mkToolCall {
  tc_id : option string;
  tc_name : string;                       (* function.name *)
  tc_arguments : list (string * JS.value) (* function.arguments *)
}.

Record Message : Type := mkMessage {
  role : Role.t;
  content : string;
  thought : option string;
  toolCalls : list ToolCall;
  toolCallId : option string;
  sessionId : option nat;
  engineId : option nat;
  msg_model : option string
}.

Record Model : Type := mkModel {
  model_id : option string;
  model_name : string;
  supportsTools : bool;
  metadata : option JS.value;
  model_engineId : option nat
}.

Record Property : Type := mkProperty {
  prop_type : option string;
  prop_description : string;
  prop_anyOf : option (list JS.value)
}.

Record Parameters : Type := mkParameters {
  params_type : string;
  required : list string;
  properties : gmap string Property
}.

Record Tool : Type := mkTool {
  tool_name : string;
  tool_description : string;
  parameters : Parameters
}.

Record Options : Type := mkOptions {
  num_ctx : option JS.number;
  temperature : option JS.number
}.

Record ClientProps : Type := mkClientProps {
  apiKey : string;
  url : string;
  props_engineId : nat
}.

Record SessionConfig : Type := mkSessionConfig {
  contextWindow : option JS.number;
  config_temperature : option JS.number
}.

Record Session : Type := mkSession {
  session_id : nat;
  messages : list Message;
  config : SessionConfig
}.

(** ** The Anthropic adapter *)

Module Anthropic.

Inductive ParamRole : Type := role_user | role_assistant.

Inductive TextBlockParam : Type :=
  | text_param (text : string).

(** The content units of a [MessageParam]. *)
Inductive ContentBlockParam : Type :=
  | thinking (thinking : string)
  | text (text : string)
  | tool_use (id : string) (name : string) (input : list (string * JS.value))
  | tool_result (tool_use_id : string) (content : list TextBlockParam).

Record MessageParam : Type := mkMessageParam {
  mp_role : ParamRole;
  mp_content : list ContentBlockParam
}.

Section Message.

(** [Session.find] is the ORM lookup; [toolResponse] uses its result
    unguarded, so it is taken as a total function of the id. *)
Variable Session_find : option nat -> Session.

Definition user (message : Message) : MessageParam :=
  {| mp_role := role_user; mp_content := [text (content message)] |}.

Definition tool_use_of (call : ToolCall) : ContentBlockParam :=
  tool_use (JS.or_string (tc_id call) "") (tc_name call) (tc_arguments call).

Definition assistant (message : Message) : MessageParam :=
  let c0 : list ContentBlockParam := [] in
  let c1 := if JS.truthy_opt JS.truthy_string (thought message)
            then c0 ++ [thinking (JS.nullish (thought message) "")]
            else c0 in
  let c2 := if JS.truthy_string (content message)
            then c1 ++ [text (content message)]
            else c1 in
  let c3 := if (0 <? length (toolCalls message))%nat
            then c2 ++ List.map tool_use_of (toolCalls message)
            else c2 in
  {| mp_role := role_assistant;
     mp_content := if (0 <? length c3)%nat then c3 else [text ""] |}.

(** The call a tool message answers: the first call of the session,
    in message order, whose id is strictly equal to [toolCallId]. *)
Definition find_call (message : Message) : option ToolCall :=
  let session := Session_find (sessionId message) in
  JS.find (fun tc => JS.strict_eq (tc_id tc) (toolCallId message))
          (JS.flatMap toolCalls (messages session)).

Definition call_id_or_empty (call : option ToolCall) : string :=
  match call with
  | Some c => JS.or_string (tc_id c) ""
  | None => ""
  end.

Definition toolResponse (message : Message) : MessageParam :=
  let call := find_call message in
  {| mp_role := role_user;
     mp_content :=
       [tool_result (call_id_or_empty call) [text_param (content message)]] |}.

Definition toAnthropic (message : Message) : option MessageParam :=
  match role message with
  | Role.system => None
  | Role.assistant => Some (assistant message)
  | Role.tool => Some (toolResponse message)
  | _ => Some (user message)
  end.

End Message.

(** *** Tool definitions ([anthropic/tool.ts]) *)

Record ToolFunctionParam : Type := mkToolFunctionParam {
  tf_name : string;
  tf_description : string;
  tf_parameters : Parameters
}.

Record AnthropicTool : Type := mkAnthropicTool {
  at_type : string;
  at_function : ToolFunctionParam
}.

Definition normalize (t : Tool) : ToolFunctionParam :=
  let params := parameters t in
  {| tf_name := tool_name t;
     tf_description := tool_description t;
     tf_parameters := {| params_type := "object";
                         properties := properties params;
                         required := required params |} |}.

Definition toAnthropicTools (tools : list Tool) : list AnthropicTool :=
  List.map (fun t => {| at_type := "function"; at_function := normalize t |})
           tools.

(** *** The client ([anthropic/client.ts]) *)

Record AnthropicClient : Type := mkAnthropicClient {
  sdk_apiKey : string;
  client_engineId : nat;
  baseUrl : option string;
  isMiniMax : bool;
  defaultModels : list string
}.

(** [MessageCreateParamsNonStreaming], with the fields the client sets. *)
Record CreateParams : Type := mkCreateParams {
  p_model : option string;
  p_max_tokens : JS.value;
  p_temperature : option JS.number;
  p_messages : list MessageParam;
  p_system : option string;
  p_tools : option (list AnthropicTool)
}.

Definition constructor (options : ClientProps) : Result AnthropicClient :=
  if negb (JS.truthy_string (apiKey options))
  then Raise "Anthropic apiKey obrigatório"
  else
    let base := if JS.truthy_string (url options)
                then Some (url options) else None in
    let mini := JS.includes "api.minimax.io/anthropic" (JS.or_string base "") in
    Ok {| sdk_apiKey := apiKey options;
          client_engineId := props_engineId options;
          baseUrl := base;
          isMiniMax := mini;
          defaultModels :=
            if mini then ["MiniMax-M2"; "MiniMax-M2-Stable"]
            else ["claude-3-5-sonnet-latest"; "claude-3-opus-latest"] |}.

Definition clamp (value min max : JS.number) : JS.number :=
  JS.Math_min (JS.Math_max value min) max.

Definition num (z : Z) : JS.value := JS.JNum (JS.Fin (inject_Z z)).

(** [model.metadata?.limits?.max_output_tokens]. *)
Definition declared_limit (mdl : Model) : option JS.value :=
  JS.opt_get "max_output_tokens" (JS.opt_get "limits" (metadata mdl)).

Definition default_max_tokens (self : AnthropicClient) : JS.value :=
  if isMiniMax self then num 4096 else num 1024.

Definition max_tokens_for (self : AnthropicClient) (mdl : Model) : JS.value :=
  match declared_limit mdl with
  | Some v => if JS.truthy v then v else default_max_tokens self
  | None => default_max_tokens self
  end.

Definition sent_temperature (options : Options) : JS.number :=
  clamp (JS.nullish (temperature options) (JS.Fin (8 # 10)))
        (JS.Fin (1 # 100)) (JS.Fin 1).

Definition chat_system (history : list Message) : string :=
  JS.join JS.blank_line
    (List.map content
       (List.filter (fun m => Role.eqb (role m) Role.system) history)).

Section Client.

Variable Session_find : option nat -> Session.

(** The [params] object [chat] hands to [sdk.messages.create]. *)
Definition chat_params (self : AnthropicClient) (mdl : Model)
    (history : list Message) (tools : list Tool) (options : Options)
  : CreateParams :=
  let system := chat_system history in
  let msgs := JS.compact (List.map (toAnthropic Session_find) history) in
  {| p_model := Some (model_name mdl);
     p_max_tokens := max_tokens_for self mdl;
     p_temperature := Some (sent_temperature options);
     p_messages := msgs;
     p_system := if JS.truthy_string system then Some system else None;
     p_tools := if (0 <? length tools)%nat
                then Some (toAnthropicTools tools) else None |}.

(** The provider behind [sdk.messages.create]: every call is one
    network request, answered or failed. *)
Variable Response : Type.
Variable messages_create : CreateParams -> Result Response.

Definition ping (self : AnthropicClient) : CreateParams :=
  {| p_model := List.nth_error (defaultModels self) 0;
     p_max_tokens := num 1;
     p_temperature := None;
     p_messages := [ {| mp_role := role_user; mp_content := [text "ping"] |} ];
     p_system := None;
     p_tools := None |}.

(** [connected()], threading the requests made so far. *)
Definition connected (self : AnthropicClient) (calls : list CreateParams)
  : Result bool * list CreateParams :=
  (try_catch
     (match messages_create (ping self) with
      | Ok _ => Ok true
      | Raise e => Raise e
      end)
     (fun _ => Ok false),
   calls ++ [ping self]).

(** [new AnthropicClient(options).connected()]. *)
Definition construct_and_probe (options : ClientProps)
    (calls : list CreateParams) : Result bool * list CreateParams :=
  match constructor options with
  | Ok self => connected self calls
  | Raise e => (Raise e, calls)
  end.

End Client.

End Anthropic.

(** ** Gemini tool definitions ([lib/engines/gemini/tool.ts]) *)

Module Gemini.

(** The [Type] enumeration of the Gemini SDK. *)
Inductive GeminiType : Type :=
  | STRING | NUMBER | BOOLEAN | INTEGER | ARRAY | OBJECT.

(** What [toGeminiType] returns: a tag of the enumeration, or, for a
    name the table inherits from [Object.prototype], that inherited
    property. *)
Inductive TypeValue : Type :=
  | Tag (t : GeminiType)
  | Prototype (key : string).

(** The [type] field of a translated property: the value of
    [toGeminiType], or the canonical field left as it was. *)
Inductive TypeField : Type :=
  | Enum (v : TypeValue)
  | Kept (s : option string).

Record Schema : Type := mkSchema {
  schema_type : TypeField;
  schema_description : string;
  schema_anyOf : option (list JS.value)
}.

Record FunctionParameters : Type := mkFunctionParameters {
  fp_type : GeminiType;
  fp_required : list string;
  fp_properties : gmap string Schema
}.

Record FunctionDeclaration : Type := mkFunctionDeclaration {
  fd_name : string;
  fd_description : string;
  fd_parameters : FunctionParameters
}.

Definition type_table : list (string * GeminiType) :=
  [ ("string", STRING); ("number", NUMBER); ("boolean", BOOLEAN);
    ("integer", INTEGER); ("array", ARRAY); ("object", OBJECT) ].

Definition toGeminiType (type : string) : TypeValue :=
  match JS.get type type_table with
  | JS.Own t => Tag t
  | JS.Inherited key => Prototype key
  | JS.Missing => Tag STRING
  end.

(** Modelled from the spec: [Object.map] is an extension the repository
    installs outside these sources; it rebuilds an object from the
    [[name, value]] pairs its callback returns for each entry. *)
Definition Object_map {A B} (obj : gmap string A)
    (f : string -> A -> string * B) : gmap string B :=
  list_to_map ((fun kv => f (fst kv) (snd kv)) <$> map_to_list obj).

(** The callback of [fromOne]: the property spread, with [type]
    overridden when it is set and the property has no [anyOf]. *)
Definition convert (prop : Property) : Schema :=
  {| schema_type :=
       if JS.truthy_opt JS.truthy_string (prop_type prop)
          && negb (bool_decide (is_Some (prop_anyOf prop)))
       then Enum (toGeminiType (JS.nullish (prop_type prop) ""))
       else Kept (prop_type prop);
     schema_description := prop_description prop;
     schema_anyOf := prop_anyOf prop |}.

Definition fromOne (t : Tool) : FunctionDeclaration :=
  let props :=
    Object_map (properties (parameters t)) (fun name prop => (name, convert prop)) in
  {| fd_name := tool_name t;
     fd_description := tool_description t;
     fd_parameters := {| fp_type := OBJECT;
                         fp_required := required (parameters t);
                         fp_properties := props |} |}.

Definition fromMany (tools : list Tool) : list FunctionDeclaration :=
  List.map fromOne tools.

(** [from], whose argument is one tool or an array of tools; the result
    is the single-element [ToolListUnion]. *)
Definition from (tools : Tool + list Tool) : list (list FunctionDeclaration) :=
  [ match tools with
    | inl t => [fromOne t]
    | inr ts => fromMany ts
    end ].

End Gemini.

(** ** The engine registry ([lib/models/engine.svelte.ts]) *)

Module Registry.

(** What the registry uses of the [Client] interface.  Every adapter of
    the repository wraps its probe in [try]/[catch] and answers [false]
    on failure, so [connected] is a boolean; [models] may fail. *)
Record Client : Type := mkClient {
  connected : bool;
  models : Result (list Model)
}.

Record ClientOptions : Type := mkClientOptions {
  opt_url : string;
  opt_apiKey : string
}.

Record Row : Type := mkRow {
  row_id : nat;
  row_name : string;
  row_type : string;
  row_options : string
}.

Record Engine : Type := mkEngine {
  engine_id : nat;
  engine_name : string;
  engine_type : string;
  engine_options : ClientOptions;
  engine_models : list Model
}.

Inductive Allowed : Type :=
  | all
  | names (l : list string).

(** What the [client] getter returns when it returns something: an
    adapter, or the plain object of the constructor's argument, which
    has none of the methods of an adapter. *)
Inductive Resolved : Type :=
  | Adapter (c : Client)
  | Plain (props : ClientProps).

Definition AVAILABLE_MODELS : list (string * Allowed) :=
  [ ("openai-compat", all);
    ("ollama", all);
    ("openai", names ["gpt-4o"; "o4-mini"; "gpt-4.5-preview"; "gpt-4.1";
                      "gpt-4.1-mini"; "gpt-5"]);
    ("gemini", names ["gemini-2.5-pro"; "gemini-2.5-flash";
                      "gemini-2.5-flash-lite"; "gemini-2.0-flash";
                      "gemini-2.0-flash-lite"]) ].

(** The calls [fromSql] makes on an adapter, in order. *)
Inductive Event : Type :=
  | EvConnected (engine : nat)
  | EvModels (engine : nat).

Definition is_models (e : Event) : bool :=
  match e with EvModels _ => true | _ => false end.

Definition is_connected (e : Event) : bool :=
  match e with EvConnected _ => true | _ => false end.

(** [Engine.new] as [fromSql] calls it: the row's fields, the parsed
    options and no model yet. *)
Definition fresh_engine (row : Row) (opts : ClientOptions) : Engine :=
  {| engine_id := row_id row; engine_name := row_name row;
     engine_type := row_type row; engine_options := opts;
     engine_models := [] |}.

(** [Array.prototype.filter] with a callback that may raise. *)
Fixpoint filter_r {A} (p : A -> Result bool) (l : list A) : Result (list A) :=
  match l with
  | [] => Ok []
  | x :: rest =>
      match p x with
      | Raise e => Raise e
      | Ok b =>
          match filter_r p rest with
          | Raise e => Raise e
          | Ok rest' => Ok (if b then x :: rest' else rest')
          end
      end
  end.

Section Engine.

(** The adapter classes of the kind table, as their constructors. *)
Variables Ollama OpenAI Gemini : ClientProps -> Result Client.

(** [JSON.parse] of the options column. *)
Variable JSON_parse : string -> Result ClientOptions.

(** [sortBy('name')]: an array extension outside these sources. *)
Variable sortBy_name : list Model -> list Model.

Definition client_table : list (string * (ClientProps -> Result Client)) :=
  [ ("ollama", Ollama); ("openai", OpenAI); ("gemini", Gemini);
    ("openai-compat", OpenAI) ].

(** [new Client(props)] for a [Client] the table inherits: only
    [constructor], which is [Object], can be called with [new], and it
    returns the object it is given; the other inherited properties are
    not constructors. *)
Definition new_inherited (key : string) (props : ClientProps)
  : Result (option Resolved) :=
  if (key =? "constructor")%string then Ok (Some (Plain props))
  else Raise "TypeError: Client is not a constructor".

(** The [client] getter. *)
Definition client (e : Engine) : option Resolved :=
  let props := {| apiKey := opt_apiKey (engine_options e);
                  url := opt_url (engine_options e);
                  props_engineId := engine_id e |} in
  match JS.get (engine_type e) client_table with
  | JS.Own Client =>
      match try_catch
              (match Client props with
               | Ok c => Ok (Some (Adapter c))
               | Raise err => Raise err
               end)
              (fun _ => Ok None) with
      | Ok r => r
      | Raise _ => None
      end
  | JS.Inherited key =>
      match try_catch (new_inherited key props) (fun _ => Ok None) with
      | Ok r => r
      | Raise _ => None
      end
  | JS.Missing => None
  end.

(** The callback of the [filter] in [fromSql]. *)
Definition allowed (type : string) (m : Model) : Result bool :=
  match JS.get type AVAILABLE_MODELS with
  | JS.Own all => Ok true
  | JS.Own (names l) => Ok (existsb (String.eqb (model_name m)) l)
  | JS.Inherited _ =>
      Raise "TypeError: AVAILABLE_MODELS[engine.type].includes is not a function"
  | JS.Missing => Raise "TypeError: AVAILABLE_MODELS[engine.type] is undefined"
  end.

Definition with_models (e : Engine) (ms : list Model) : Engine :=
  {| engine_id := engine_id e; engine_name := engine_name e;
     engine_type := engine_type e; engine_options := engine_options e;
     engine_models := ms |}.

(** [e.client.m()]: the getter is read again at each use. *)
Definition on_client {A} (e : Engine) (k : Client -> Result A) : Result A :=
  match client e with
  | Some (Adapter c) => k c
  | Some (Plain _) => Raise "TypeError: engine.client method is not a function"
  | None => Raise "TypeError: engine.client is undefined"
  end.

Definition fromSql (row : Row) : Result Engine * list Event :=
  match JSON_parse (row_options row) with
  | Raise err => (Raise err, [])
  | Ok opts =>
      let engine := fresh_engine row opts in
      match client engine with
      | None => (Ok engine, [])
      | Some _ =>
          match on_client engine (fun c => Ok (connected c)) with
          | Raise err => (Raise err, [])
          | Ok false => (Ok engine, [EvConnected (row_id row)])
          | Ok true =>
              let listed :=
                match on_client engine models with
                | Raise err => Raise err
                | Ok ms =>
                    match filter_r (allowed (engine_type engine)) ms with
                    | Raise err => Raise err
                    | Ok kept => Ok (sortBy_name kept)
                    end
                end in
              (Ok (match listed with
                   | Ok ms => with_models engine ms
                   | Raise _ => engine
                   end),
               [EvConnected (row_id row); EvModels (row_id row)])
          end
      end
  end.

End Engine.

End Registry.

(** ** The dispatch loop ([lib/dispatch.ts]) *)

Module Dispatch.

(** The effects of a dispatch, in the order they happen. *)
Inductive Event : Type :=
  | EvTools (session : nat)
  | EvChat (history : list Message)
  | EvUuid (id : string)
  | EvInvoke (session : nat) (name : string) (arguments : list (string * JS.value))
  | EvAddMessage (m : Message)
  | EvSave (m : Message).

(** The world a dispatch runs in: the persisted messages of all
    sessions in the order they were saved, the number of identifiers
    generated so far, and the effects so far. *)
Record World : Type := mkWorld {
  store : list Message;
  uuids : nat;
  trace : list Event
}.

Definition ChatFn : Type :=
  Model -> list Message -> list Tool -> Options -> Result Message.

Definition log (e : Event) (w : World) : World :=
  {| store := store w; uuids := uuids w; trace := trace w ++ [e] |}.

Definition persist (m : Message) (w : World) : World :=
  {| store := store w ++ [m]; uuids := uuids w; trace := trace w |}.

Definition in_session (sid : nat) (m : Message) : bool :=
  match sessionId m with
  | Some s => (s =? sid)%nat
  | None => false
  end.

(** [session.messages]: the persisted messages of the session. *)
Definition session_messages (sid : nat) (w : World) : list Message :=
  List.filter (in_session sid) (store w).

(** [String(model.id)]. *)
Definition String_of (o : option string) : string :=
  match o with Some s => s | None => "undefined" end.

(** Modelled from the spec: [session.addMessage] is outside these
    sources; it builds a message of the session from the given fields
    and persists it, so that [session.messages] ends with it. *)
Definition addMessage (sid : nat) (r : Role.t) (text : string)
    (calls : list ToolCall) (answers : option string) (w : World) : World :=
  let m := {| role := r; content := text; thought := None; toolCalls := calls;
              toolCallId := answers; sessionId := Some sid;
              engineId := None; msg_model := None |} in
  persist m (log (EvAddMessage m) w).

(** The provenance stamps of the final reply. *)
Definition stamp (sid : nat) (mdl : Model) (m : Message) : Message :=
  {| role := role m; content := content m; thought := thought m;
     toolCalls := toolCalls m; toolCallId := toolCallId m;
     sessionId := Some sid;
     engineId := model_engineId mdl;
     msg_model := Some (String_of (model_id mdl)) |}.

(** [message.save()]. *)
Definition save (m : Message) (w : World) : World :=
  persist m (log (EvSave m) w).

(** The options [dispatch] reads off the session's configuration. *)
Definition options_of (s : Session) : Options :=
  {| num_ctx := contextWindow (config s);
     temperature := config_temperature (config s) |}.

Definition with_id (call : ToolCall) (id : string) : ToolCall :=
  {| tc_id := Some id; tc_name := tc_name call;
     tc_arguments := tc_arguments call |}.

Section Loop.

(** [uuid4()]: the [n]-th identifier it generates. *)
Variable uuid4 : nat -> string.

(** [session.tools()]. *)
Variable session_tools : nat -> Result (list Tool).

(** [Engine.find(Number(model.engineId))] followed by [.client]: the
    adapter's [chat], or nothing when the engine or its client is
    missing. *)
Variable Engine_client : option nat -> option ChatFn.

(** [invoke('call_mcp_tool', ...)]: the tool-execution collaborator. *)
Variable call_mcp_tool :
  nat -> string -> list (string * JS.value) -> Result string.

(** [call.id ||= uuid4()]. *)
Definition ensure_id (call : ToolCall) (w : World) : ToolCall * World :=
  if JS.truthy_opt JS.truthy_string (tc_id call)
  then (call, w)
  else
    let id := uuid4 (uuids w) in
    (with_id call id,
     log (EvUuid id)
         {| store := store w; uuids := S (uuids w); trace := trace w |}).

(** One tool round after the reply: the body of the [for] loop up to
    its [return await dispatch(session, model)]. *)
Definition tool_round (sid : nat) (call : ToolCall) (w : World)
  : Result unit * World :=
  let (call', w1) := ensure_id call w in
  let w2 := log (EvInvoke sid (tc_name call') (tc_arguments call')) w1 in
  match call_mcp_tool sid (tc_name call') (tc_arguments call') with
  | Raise err => (Raise err, w2)
  | Ok text =>
      let w3 := addMessage sid Role.assistant "" [call'] None w2 in
      let w4 := addMessage sid Role.tool text [] (tc_id call') w3 in
      (Ok tt, w4)
  end.

(** [dispatch(session, model)].  The recursion of the source is not
    bounded; [fuel] bounds the number of rounds. *)
Fixpoint dispatch (fuel : nat) (s : Session) (mdl : Model) (w : World)
  : Result Message * World :=
  match fuel with
  | O => (Raise "dispatch: out of fuel", w)
  | S fuel' =>
      let sid := session_id s in
      let options := options_of s in
      let w1 := log (EvTools sid) w in
      match session_tools sid with
      | Raise err => (Raise err, w1)
      | Ok tools =>
          match Engine_client (model_engineId mdl) with
          | None => (Raise "TypeError: engine.client is undefined", w1)
          | Some chat =>
              let history := session_messages sid w1 in
              let w2 := log (EvChat history) w1 in
              match chat mdl history tools options with
              | Raise err => (Raise err, w2)
              | Ok message =>
                  match toolCalls message with
                  | call :: _ =>
                      match tool_round sid call w2 with
                      | (Raise err, w3) => (Raise err, w3)
                      | (Ok _, w3) => dispatch fuel' s mdl w3
                      end
                  | [] =>
                      let final := stamp sid mdl message in
                      (Ok final, save final w2)
                  end
              end
          end
      end
  end.

End Loop.

(** Where an effect first happens in a trace. *)
Fixpoint index_of {A} (p : A -> bool) (l : list A) : option nat :=
  match l with
  | [] => None
  | x :: rest =>
      if p x then Some 0%nat
      else match index_of p rest with
           | Some i => Some (S i)
           | None => None
           end
  end.

Definition is_invoke (e : Event) : bool :=
  match e with EvInvoke _ _ _ => true | _ => false end.

Definition persists_role (r : Role.t) (e : Event) : bool :=
  match e with
  | EvAddMessage m => Role.eqb (role m) r
  | _ => false
  end.

Definition precedes {A} (p q : A -> bool) (l : list A) : Prop :=
  exists i j, index_of p l = Some i /\ index_of q l = Some j /\ (i < j)%nat.

End Dispatch.

(** ** Replies and model listing of the Anthropic client
    ([anthropic/client.ts]) *)

Module AnthropicReply.

(** The content blocks of a response. *)
Inductive ContentBlock : Type :=
  | text_block (text : string)
  | thinking_block (thinking : string)
  | tool_use_block (id : string) (name : string)
                   (input : list (string * JS.value))
  | other_block (type : string).

Definition is_text (b : ContentBlock) : bool :=
  match b with text_block _ => true | _ => false end.

Definition is_thinking (b : ContentBlock) : bool :=
  match b with thinking_block _ => true | _ => false end.

Definition is_tool_use (b : ContentBlock) : bool :=
  match b with tool_use_block _ _ _ => true | _ => false end.

(** [(block as TextBlock).text]; the filter before it leaves text
    blocks only. *)
Definition text_of (b : ContentBlock) : string :=
  match b with text_block t => t | _ => "" end.

Definition thinking_of (b : ContentBlock) : string :=
  match b with thinking_block t => t | _ => "" end.

(** The [ToolCall] built from a [ToolUseBlock]. *)
Definition call_of (b : ContentBlock) : ToolCall :=
  match b with
  | tool_use_block id name input =>
      {| tc_id := Some id; tc_name := name; tc_arguments := input |}
  | _ => {| tc_id := None; tc_name := ""; tc_arguments := [] |}
  end.

Definition provider_name (self : Anthropic.AnthropicClient) : string :=
  if Anthropic.isMiniMax self then "MiniMax" else "Anthropic".

Definition models (self : Anthropic.AnthropicClient) : list Model :=
  List.map
    (fun name =>
       {| model_id := Some ("anthropic:" ++ name)%string;
          model_name := name;
          metadata := Some (JS.JObj [("provider", JS.JStr (provider_name self))]);
          model_engineId := Some (Anthropic.client_engineId self);
          supportsTools := true |})
    (Anthropic.defaultModels self).

Definition info (self : Anthropic.AnthropicClient) (name : string) : Model :=
  {| model_id := Some ("anthropic:" ++ name)%string;
     model_name := name;
     metadata := Some (JS.JObj [("provider", JS.JStr (provider_name self))]);
     model_engineId := Some (Anthropic.client_engineId self);
     supportsTools := true |}.

(** A content unit of a request read as a block of a response: the two
    have the same wire shape, and a response has no tool result. *)
Definition as_block (u : Anthropic.ContentBlockParam) : ContentBlock :=
  match u with
  | Anthropic.thinking t => thinking_block t
  | Anthropic.text t => text_block t
  | Anthropic.tool_use id name input => tool_use_block id name input
  | Anthropic.tool_result _ _ => other_block "tool_result"
  end.

Definition is_thinking_unit (u : Anthropic.ContentBlockParam) : bool :=
  match u with Anthropic.thinking _ => true | _ => false end.

Definition is_tool_use_unit (u : Anthropic.ContentBlockParam) : bool :=
  match u with Anthropic.tool_use _ _ _ => true | _ => false end.

(** The tool invocations of a response, block after block. *)
Fixpoint tool_uses (response : list ContentBlock)
  : list (string * string * list (string * JS.value)) :=
  match response with
  | [] => []
  | tool_use_block id name input :: rest => (id, name, input) :: tool_uses rest
  | _ :: rest => tool_uses rest
  end.

Section Reply.

(** [String.prototype.trim]. *)
Variable trim : string -> string.

Definition toMessage (response : list ContentBlock) (mdl : Model) : Message :=
  let text :=
    trim (JS.join JS.blank_line
            (List.map text_of (List.filter is_text response))) in
  let thought :=
    trim (JS.join JS.blank_line
            (List.map thinking_of (List.filter is_thinking response))) in
  let calls := List.map call_of (List.filter is_tool_use response) in
  {| msg_model := Some (model_name mdl);
     role := Role.assistant;
     content := text;
     thought := if JS.truthy_string thought then Some thought else None;
     toolCalls := calls;
     toolCallId := None; sessionId := None; engineId := None |}.

Variable Session_find : option nat -> Session.
Variable messages_create :
  Anthropic.CreateParams -> Result (list ContentBlock).

(** [chat], threading the requests made so far. *)
Definition chat (self : Anthropic.AnthropicClient) (mdl : Model)
    (history : list Message) (tools : list Tool) (options : Options)
    (calls : list Anthropic.CreateParams)
  : Result Message * list Anthropic.CreateParams :=
  let params := Anthropic.chat_params Session_find self mdl history tools options in
  (try_catch
     (match messages_create params with
      | Ok response => Ok (toMessage response mdl)
      | Raise err => Raise err
      end)
     (fun err => Raise err),
   calls ++ [params]).

End Reply.

End AnthropicReply.

(** ** The OpenAI adapter ([openai/message.ts], [openai/client.ts]) *)

Module OpenAI.

Record ToolCallParam : Type := mkToolCallParam {
  call_id : option string;
  call_type : string;
  call_name : string;
  call_arguments : string
}.

(** [ChatCompletionMessageParam], by role. *)
Inductive MessageParam : Type :=
  | user_param (content : string)
  | assistant_param (content : string)
                    (tool_calls : option (list ToolCallParam))
  | tool_param (tool_call_id : option string) (content : string)
  | system_param (content : string).

Definition param_content (p : MessageParam) : string :=
  match p with
  | user_param c | assistant_param c _ | tool_param _ c | system_param c => c
  end.

(** What the provider returns for one tool call. *)
Record RawToolCall : Type := mkRawToolCall {
  raw_id : string;
  raw_name : string;
  raw_arguments : string
}.

(** [response.choices[i].message]. *)
Record Choice : Type := mkChoice {
  choice_role : Role.t;
  choice_content : option string;
  choice_tool_calls : option (list RawToolCall)
}.

Record Completion : Type := mkCompletion {
  completion_model : string;
  completion_messages : list MessageParam;
  completion_tools : option (list Tool)
}.

Record Client : Type := mkClient {
  client_options : ClientProps;
  client_apiKey : string
}.

Definition constructor (options : ClientProps) : Client :=
  {| client_options := options; client_apiKey := apiKey options |}.

(** [Array.prototype.map] with a callback that may raise. *)
Fixpoint map_r {A B} (f : A -> Result B) (l : list A) : Result (list B) :=
  match l with
  | [] => Ok []
  | x :: rest =>
      match f x with
      | Raise err => Raise err
      | Ok y =>
          match map_r f rest with
          | Raise err => Raise err
          | Ok ys => Ok (y :: ys)
          end
      end
  end.

(** [Object.hasOwn(body, key)]: raises on [null], and a value that is
    not a plain object has no such key. *)
Definition hasOwn (body : JS.value) (key : string) : Result bool :=
  match body with
  | JS.JNull => Raise "TypeError: Cannot convert undefined or null to object"
  | JS.JObj fields =>
      Ok (match JS.assoc key fields with Some _ => true | None => false end)
  | _ => Ok false
  end.

Section Adapter.

Variable JSON_stringify : list (string * JS.value) -> string.
Variable JSON_parse : string -> Result (list (string * JS.value)).

Definition toolCalls_param (message : Message) : option (list ToolCallParam) :=
  if (length (toolCalls message) =? 0)%nat then None
  else
    Some (List.map
            (fun call =>
               {| call_id := tc_id call;
                  call_type := "function";
                  call_name := tc_name call;
                  call_arguments := JSON_stringify (tc_arguments call) |})
            (toolCalls message)).

Definition fromUser (message : Message) : MessageParam :=
  user_param (content message).

Definition fromAssistant (message : Message) : MessageParam :=
  assistant_param (content message) (toolCalls_param message).

Definition fromTool (message : Message) : MessageParam :=
  tool_param (toolCallId message) (content message).

Definition fromSystem (message : Message) : MessageParam :=
  system_param (content message).

Definition from (message : Message) : MessageParam :=
  if Role.eqb (role message) Role.assistant then fromAssistant message
  else if Role.eqb (role message) Role.system then fromSystem message
  else if existsb (Role.eqb (role message)) [Role.tool; Role.function]
       then fromTool message
  else fromUser message.

(** The request [chat] builds; the options are not used. *)
Definition completion_of (mdl : Model) (history : list Message)
    (tools : list Tool) : Completion :=
  {| completion_model := model_name mdl;
     completion_messages := List.map from history;
     completion_tools := if (0 <? length tools)%nat then Some tools else None |}.

(** The provider behind [chat.completions.create]. *)
Variable completions_create : Completion -> Result (list Choice).

Definition parse_call (tc : RawToolCall) : Result ToolCall :=
  match JSON_parse (raw_arguments tc) with
  | Ok args => Ok {| tc_id := None; tc_name := raw_name tc; tc_arguments := args |}
  | Raise err => Raise err
  end.

Definition chat (self : Client) (mdl : Model) (history : list Message)
    (tools : list Tool) (_options : Options) : Result Message :=
  match completions_create (completion_of mdl history tools) with
  | Raise err => Raise err
  | Ok choices =>
      match List.nth_error choices 0 with
      | None => Raise "TypeError: response.choices[0] is undefined"
      | Some message =>
          match match choice_tool_calls message with
                | Some tool_calls => map_r parse_call tool_calls
                | None => Ok []
                end with
          | Raise err => Raise err
          | Ok calls =>
              Ok {| msg_model := Some (model_name mdl);
                    role := choice_role message;
                    content := JS.or_string (choice_content message) "";
                    toolCalls := calls;
                    thought := None; toolCallId := None;
                    sessionId := None; engineId := None |}
          end
      end
  end.

(** The body of the model listing, when the request and the decoding
    of its answer succeed. *)
Variable models_list_body : Result JS.value.

(** [connected()], threading the number of requests made so far. *)
Definition connected (self : Client) (requests : nat) : Result bool * nat :=
  if (client_apiKey self =? "")%string
  then (try_catch (Ok false) (fun _ => Ok false), requests)
  else
    (try_catch
       (match models_list_body with
        | Raise err => Raise err
        | Ok body =>
            match hasOwn body "error" with
            | Raise err => Raise err
            | Ok has => Ok (negb has)
            end
        end)
       (fun _ => Ok false),
     S requests).

End Adapter.

End OpenAI.

(** ** Gemini messages and requests ([gemini/message.ts],
    [gemini/client.ts]) *)

Module GeminiChat.

Inductive Part : Type :=
  | text_part (text : string)
  | functionCall_part (id : option string) (name : string)
                      (args : list (string * JS.value))
  | functionResponse_part (name : option string) (result : string).

Record Content : Type := mkContent {
  content_role : string;
  parts : list Part
}.

Record Config : Type := mkConfig {
  config_temperature : option JS.number;
  systemInstruction : option string;
  config_tools : option (list (list Gemini.FunctionDeclaration))
}.

(** What the provider returns for one function call. *)
Record FunctionCall : Type := mkFunctionCall {
  fc_name : string;
  fc_args : option (list (string * JS.value))
}.

Record Response : Type := mkResponse {
  response_text : option string;
  functionCalls : option (list FunctionCall)
}.

Section Adapter.

Variable Session_find : option nat -> Session.

(** [fromAny], the translation of the remaining roles, is outside these
    sources. *)
Variable fromAny : Message -> option Content.

Definition fromUser (message : Message) : Content :=
  {| content_role := "user"; parts := [text_part (content message)] |}.

Definition fromAssistant (message : Message) : Content :=
  {| content_role := "model"; parts := [text_part (content message)] |}.

Definition fromToolCall (message : Message) : option Content :=
  match toolCalls message with
  | [] => None
  | first :: _ =>
      Some {| content_role := "model";
              parts := [functionCall_part (tc_id first) (tc_name first)
                                          (tc_arguments first)] |}
  end.

Definition fromToolResponse (message : Message) : Content :=
  let session := Session_find (sessionId message) in
  let call :=
    JS.find (fun tc => JS.strict_eq (tc_id tc) (toolCallId message))
            (JS.flatMap toolCalls (messages session)) in
  {| content_role := "user";
     parts := [functionResponse_part
                 (match call with Some c => Some (tc_name c) | None => None end)
                 (content message)] |}.

Definition from (message : Message) : option Content :=
  if Role.eqb (role message) Role.user then Some (fromUser message)
  else if Role.eqb (role message) Role.assistant
          && negb (JS.truthy_string (content message))
       then fromToolCall message
  else if Role.eqb (role message) Role.assistant
       then Some (fromAssistant message)
  else if Role.eqb (role message) Role.tool
       then Some (fromToolResponse message)
  else if Role.eqb (role message) Role.system then None
  else fromAny message.

(** The [contents] and the [config] of the request [chat] makes;
    [tools] and [options] are optional arguments. *)
Definition request (history : list Message) (tools : option (list Tool))
    (options : option Options) : list Content * Config :=
  let systemMessages :=
    List.filter (fun m => Role.eqb (role m) Role.system) history in
  let nonSystemMessages :=
    List.filter (fun m => negb (Role.eqb (role m) Role.system)) history in
  let msgs := JS.compact (List.map from nonSystemMessages) in
  (msgs,
   {| config_temperature :=
        match options with Some o => temperature o | None => None end;
      systemInstruction :=
        if (0 <? length systemMessages)%nat
        then Some (JS.join JS.blank_line (List.map content systemMessages))
        else None;
      config_tools :=
        match tools with
        | Some ts => if (0 <? length ts)%nat
                     then Some (Gemini.from (inr ts)) else None
        | None => None
        end |}).

(** The message [chat] builds from a response. *)
Definition ingest (mdl : Model) (response : Response) : Message :=
  let calls :=
    match functionCalls response with
    | Some fcs =>
        List.map (fun tc => {| tc_id := None; tc_name := fc_name tc;
                               tc_arguments := JS.nullish (fc_args tc) [] |})
                 fcs
    | None => []
    end in
  {| msg_model := Some (model_name mdl);
     role := Role.assistant;
     content := JS.or_string (response_text response) "";
     toolCalls := calls;
     thought := None; toolCallId := None; sessionId := None;
     engineId := None |}.

(** The provider behind [models.generateContent]. *)
Variable generateContent : string -> list Content -> Config -> Result Response.

Definition chat (mdl : Model) (history : list Message)
    (tools : option (list Tool)) (options : option Options) : Result Message :=
  let (contents, cfg) := request history tools options in
  match generateContent (model_name mdl) contents cfg with
  | Raise err => Raise err
  | Ok response => Ok (ingest mdl response)
  end.

End Adapter.

End GeminiChat.

(** ** The Ollama adapter ([ollama/message.ts], [ollama/client.ts]) *)

Module Ollama.

Record ToolCallParam : Type := mkToolCallParam {
  call_name : string;
  call_arguments : list (string * JS.value)
}.

Record OllamaMessage : Type := mkOllamaMessage {
  om_role : Role.t;
  om_content : string;
  om_tool_calls : list ToolCallParam
}.

Definition from (message : Message) : OllamaMessage :=
  {| om_role := role message;
     om_content := content message;
     om_tool_calls :=
       List.map (fun c => {| call_name := tc_name c;
                             call_arguments := tc_arguments c |})
                (toolCalls message) |}.

(** The double quote character. *)
Definition quote : ascii := ascii_of_nat 34.

(** [s.replace(/^c/, '')] for one literal character [c]. *)
Definition drop_leading (c : ascii) (s : string) : string :=
  match s with
  | String a rest => if Ascii.eqb a c then rest else s
  | EmptyString => s
  end.

(** [s.replace(/c$/, '')] for one literal character [c]. *)
Fixpoint drop_trailing (c : ascii) (s : string) : string :=
  match s with
  | EmptyString => EmptyString
  | String a EmptyString => if Ascii.eqb a c then EmptyString else s
  | String a rest => String a (drop_trailing c rest)
  end.

Fixpoint drop (n : nat) (s : string) : string :=
  match n, s with
  | S k, String _ rest => drop k rest
  | _, _ => s
  end.

(** [s.replace(pattern, '')] for a literal pattern: the first
    occurrence goes. *)
Fixpoint remove_first (pattern s : string) : string :=
  if String.prefix pattern s then drop (String.length pattern) s
  else match s with
       | EmptyString => EmptyString
       | String a rest => String a (remove_first pattern rest)
       end.

(** [s.split(separator)] for a non-empty separator: [skip] counts the
    characters of a separator still to pass, [piece] is the piece being
    read. *)
Fixpoint split_from (separator s : string) (skip : nat) (piece : string)
  : list string :=
  match s with
  | EmptyString => [piece]
  | String a rest =>
      match skip with
      | S k => split_from separator rest k piece
      | O =>
          if String.prefix separator s
          then piece :: split_from separator rest
                          (String.length separator - 1) EmptyString
          else split_from separator rest 0 (piece ++ String a EmptyString)
      end
  end.

Definition split (separator s : string) : list string :=
  split_from separator s 0 EmptyString.

(** The three replacements applied to the text of a response: a final
    period, then a leading double quote, then a final double quote. *)
Definition clean (text : string) : string :=
  drop_trailing quote (drop_leading quote (drop_trailing "."%char text)).

Record Response : Type := mkResponse {
  response_content : string;
  response_tool_calls : option (list ToolCall)
}.

Section Adapter.

(** [String.prototype.trim]. *)
Variable trim : string -> string.

(** The message [chat] builds from a response; it raises when the text
    opens a [<think>] block that no [</think>] closes, the second piece
    of the split being [undefined]. *)
Definition ingest (mdl : Model) (response : Response) : Result Message :=
  let cleaned := clean (response_content response) in
  match
    (if JS.includes "<think>" cleaned
     then
       let pieces := split "</think>" cleaned in
       match List.nth_error pieces 0, List.nth_error pieces 1 with
       | Some thought, Some rest =>
           Ok (Some (trim (remove_first "<think>" thought)), trim rest)
       | _, _ =>
           Raise "TypeError: Cannot read properties of undefined (reading 'trim')"
       end
     else Ok (None, cleaned))
  with
  | Raise err => Raise err
  | Ok (thought, text) =>
      Ok {| msg_model := Some (model_name mdl);
            role := Role.assistant;
            content := text;
            thought := thought;
            toolCalls := JS.nullish (response_tool_calls response) [];
            toolCallId := None; sessionId := None; engineId := None |}
  end.

End Adapter.

End Ollama.

(** ** Tool retrieval ([lib/mcp.ts]) *)

Module Mcp.

Record InputSchema : Type := mkInputSchema {
  schema_required : list string;
  schema_properties : gmap string Property
}.

Record McpTool : Type := mkMcpTool {
  mcp_name : string;
  mcp_description : string;
  inputSchema : InputSchema
}.

Section Tools.

(** [invoke('get_mcp_tools', { sessionId })]. *)
Variable get_mcp_tools : nat -> Result (list McpTool).

Definition getMcpTools (sessionId : nat) : Result (list Tool) :=
  match get_mcp_tools sessionId with
  | Raise err => Raise err
  | Ok tools =>
      Ok (List.map
            (fun t =>
               {| tool_name := mcp_name t;
                  tool_description := mcp_description t;
                  parameters :=
                    {| params_type := "object";
                       required := schema_required (inputSchema t);
                       properties := schema_properties (inputSchema t) |} |})
            tools)
  end.

End Tools.

End Mcp.

(** ** Shapes of a persisted conversation *)

Module Conversation.

(** A tool call and its answer, as two consecutive messages of a
    session: an assistant message with no text, no thought and exactly
    one call whose id is a non-empty string, then a tool message
    answering that id. *)
Definition call_round (sid : nat) (asked answered : Message) : Prop :=
  role asked = Role.assistant
  /\ content asked = ""
  /\ thought asked = None
  /\ sessionId asked = Some sid
  /\ role answered = Role.tool
  /\ toolCalls answered = []
  /\ sessionId answered = Some sid
  /\ exists call id,
       toolCalls asked = [call]
       /\ tc_id call = Some id
       /\ id <> ""
       /\ toolCallId answered = Some id.

(** A run of whole rounds. *)
Inductive call_rounds (sid : nat) : list Message -> Prop :=
  | rounds_done : call_rounds sid []
  | rounds_more (asked answered : Message) (rest : list Message) :
      call_round sid asked answered ->
      call_rounds sid rest ->
      call_rounds sid (asked :: answered :: rest).

(** The identifiers generated along a trace, in order. *)
Fixpoint generated (tr : list Dispatch.Event) : list string :=
  match tr with
  | [] => []
  | Dispatch.EvUuid id :: rest => id :: generated rest
  | _ :: rest => generated rest
  end.

(** The collaborator invocations along a trace, in order. *)
Fixpoint invoked (tr : list Dispatch.Event)
  : list (string * list (string * JS.value)) :=
  match tr with
  | [] => []
  | Dispatch.EvInvoke _ name args :: rest => (name, args) :: invoked rest
  | _ :: rest => invoked rest
  end.

End Conversation.

(** ** The specification's own words, for comparison with the code *)

(** The contents of the system messages of a history, in their order. *)
Fixpoint spec_system_contents (history : list Message) : list string :=
  match history with
  | [] => []
  | m :: rest =>
      match role m with
      | Role.system => content m :: spec_system_contents rest
      | _ => spec_system_contents rest
      end
  end.

(** Texts put one after the other with a blank line between two
    consecutive ones. *)
Fixpoint spec_blank_line_joined (texts : list string) : string :=
  match texts with
  | [] => ""
  | [t] => t
  | t :: rest => t ++ JS.nl ++ JS.nl ++ spec_blank_line_joined rest
  end.

(** The messages of a history that are not system messages. *)
Definition spec_non_system (history : list Message) : list Message :=
  List.filter (fun m => negb (Role.eqb (role m) Role.system)) history.

(** A temperature the provider accepts. *)
Definition temperature_in_range (x : JS.number) : Prop :=
  match x with
  | JS.Fin q => (1 # 100 <= q)%Q /\ (q <= 1)%Q
  | _ => False
  end.

(** ** Concrete inputs used to exercise the definitions *)

Module Examples.

Definition msg (r : Role.t) (text : string) : Message :=
  {| role := r; content := text; thought := None; toolCalls := [];
     toolCallId := None; sessionId := Some 1%nat; engineId := None;
     msg_model := None |}.

Definition cfg : SessionConfig :=
  {| contextWindow := Some (JS.Fin 4096); config_temperature := Some (JS.Fin (8 # 10)) |}.

Definition call_1 : ToolCall :=
  {| tc_id := Some "call_1"; tc_name := "get_weather";
     tc_arguments := [("location", JS.JStr "NYC")] |}.

Definition asking : Message :=
  {| role := Role.assistant; content := ""; thought := None;
     toolCalls := [call_1]; toolCallId := None; sessionId := Some 1%nat;
     engineId := None; msg_model := None |}.

Definition answer (id : string) : Message :=
  {| role := Role.tool; content := "sunny"; thought := None;
     toolCalls := []; toolCallId := Some id; sessionId := Some 1%nat;
     engineId := None; msg_model := None |}.

Definition session_1 : Session :=
  {| session_id := 1; messages := [msg Role.user "hi"; asking; answer "call_1"];
     config := cfg |}.

Definition sessions (id : option nat) : Session := session_1.

Definition claude : Model :=
  {| model_id := Some "anthropic:claude-3-opus-latest";
     model_name := "claude-3-opus-latest"; supportsTools := true;
     metadata := Some (JS.JObj [("provider", JS.JStr "Anthropic")]);
     model_engineId := Some 7%nat |}.

Definition with_limit (v : JS.value) : Model :=
  {| model_id := Some "anthropic:claude-3-opus-latest";
     model_name := "claude-3-opus-latest"; supportsTools := true;
     metadata := Some (JS.JObj [("limits", JS.JObj [("max_output_tokens", v)])]);
     model_engineId := Some 7%nat |}.

Definition props (key : string) : ClientProps :=
  {| apiKey := key; url := "https://api.anthropic.com"; props_engineId := 7 |}.

Definition anthropic : Anthropic.AnthropicClient :=
  {| Anthropic.sdk_apiKey := "sk-test";
     Anthropic.client_engineId := 7;
     Anthropic.baseUrl := Some "https://api.anthropic.com";
     Anthropic.isMiniMax := false;
     Anthropic.defaultModels :=
       ["claude-3-5-sonnet-latest"; "claude-3-opus-latest"] |}.

Definition untyped : Property :=
  {| prop_type := None; prop_description := "when to look"; prop_anyOf := None |}.

Definition dated : Property :=
  {| prop_type := Some "date"; prop_description := "day"; prop_anyOf := None |}.

Definition located : Property :=
  {| prop_type := Some "string"; prop_description := "city"; prop_anyOf := None |}.

Definition get_weather : Tool :=
  {| tool_name := "get_weather";
     tool_description := "weather of a city";
     parameters :=
       {| params_type := "object";
          required := ["location"];
          properties := <["location" := located]>
                          (<["day" := dated]> (<["when" := untyped]> ∅)) |} |}.

Definition gpt (name : string) : Model :=
  {| model_id := Some ("openai:" ++ name)%string; model_name := name;
     supportsTools := true; metadata := None; model_engineId := Some 2%nat |}.

Definition openai_up (p : ClientProps) : Result Registry.Client :=
  Ok {| Registry.connected := true;
        Registry.models := Ok [gpt "gpt-4o"; gpt "davinci-002"] |}.

Definition ollama_down (p : ClientProps) : Result Registry.Client :=
  Ok {| Registry.connected := false; Registry.models := Raise "unreachable" |}.

Definition gemini_failing (p : ClientProps) : Result Registry.Client :=
  Ok {| Registry.connected := true; Registry.models := Raise "503" |}.

Definition parse_options (text : string) : Result Registry.ClientOptions :=
  Ok {| Registry.opt_url := "https://api.openai.com/v1";
        Registry.opt_apiKey := "sk-test" |}.

Definition row (kind : string) : Registry.Row :=
  {| Registry.row_id := 2; Registry.row_name := kind;
     Registry.row_type := kind; Registry.row_options := "{}" |}.

Definition unsorted (l : list Model) : list Model := l.

(** The weather scenario of the specification. *)
Definition question : Message := msg Role.user "What's the weather in NYC?".

Definition weather_call : ToolCall :=
  {| tc_id := Some ""; tc_name := "get_weather";
     tc_arguments := [("location", JS.JStr "NYC")] |}.

Definition weather_session : Session :=
  {| session_id := 1; messages := [question]; config := cfg |}.

Definition world_0 : Dispatch.World :=
  {| Dispatch.store := [question]; Dispatch.uuids := 0; Dispatch.trace := [] |}.

Definition uuid4 (n : nat) : string :=
  ("uuid-" ++ String.concat "" (List.repeat "i" n))%string.

Definition tools_of (sid : nat) : Result (list Tool) := Ok [get_weather].

Definition is_tool (m : Message) : bool := Role.eqb (role m) Role.tool.

(** The model asks for the weather tool until it has seen a tool
    answer, then replies. *)
Definition weather_chat : Dispatch.ChatFn :=
  fun mdl history tools options =>
    if existsb is_tool history
    then Ok {| role := Role.assistant; content := "It is sunny in NYC.";
               thought := None; toolCalls := []; toolCallId := None;
               sessionId := None; engineId := None;
               msg_model := Some (model_name mdl) |}
    else Ok {| role := Role.assistant; content := ""; thought := None;
               toolCalls := [weather_call]; toolCallId := None;
               sessionId := None; engineId := None;
               msg_model := Some (model_name mdl) |}.

Definition engines (id : option nat) : option Dispatch.ChatFn :=
  Some weather_chat.

Definition tool_works (sid : nat) (name : string)
    (arguments : list (string * JS.value)) : Result string := Ok "sunny".

Definition tool_crashes (sid : nat) (name : string)
    (arguments : list (string * JS.value)) : Result string :=
  Raise "tool crashed".

Definition weather_run : Result Message * Dispatch.World :=
  Dispatch.dispatch uuid4 tools_of engines tool_works 3
    weather_session claude world_0.

Definition crashing_run : Result Message * Dispatch.World :=
  Dispatch.dispatch uuid4 tools_of engines tool_crashes 3
    weather_session claude world_0.

Definition weather_reply : Message :=
  {| role := Role.assistant; content := "It is sunny in NYC.";
     thought := None; toolCalls := []; toolCallId := None;
     sessionId := Some 1%nat; engineId := Some 7%nat;
     msg_model := Some "anthropic:claude-3-opus-latest" |}.

Definition with_temperature (t : option JS.number) : Options :=
  {| num_ctx := None; temperature := t |}.

End Examples.

(** ** More concrete inputs *)

Module Scenarios.

(** A model that asks for the weather tool whatever it has seen. *)
Definition greedy_chat : Dispatch.ChatFn :=
  fun mdl history tools options =>
    Ok {| role := Role.assistant; content := ""; thought := None;
          toolCalls := [Examples.weather_call]; toolCallId := None;
          sessionId := None; engineId := None;
          msg_model := Some (model_name mdl) |}.

Definition greedy_engines (id : option nat) : option Dispatch.ChatFn :=
  Some greedy_chat.

End Scenarios.

(** * Properties *)

(** ** JavaScript helpers *)

Lemma truthy_string_false (s : string) :
  JS.truthy_string s = false <-> s = "".
Proof.
  unfold JS.truthy_string. rewrite negb_false_iff. apply String.eqb_eq.
Qed.

Lemma or_string_some (s : string) : JS.or_string (Some s) "" = s.
Proof.
  unfold JS.or_string. destruct (JS.truthy_string s) eqn:E; [reflexivity|].
  apply truthy_string_false in E. now subst.
Qed.

Lemma strict_eq_true (a b : option string) :
  JS.strict_eq a b = true <-> a = b.
Proof.
  destruct a as [x|], b as [y|]; simpl; split; intros H;
    try discriminate; try reflexivity.
  - apply String.eqb_eq in H. now subst.
  - inversion H. apply String.eqb_refl.
Qed.

Lemma find_some {A} (p : A -> bool) (l : list A) (x : A) :
  JS.find p l = Some x -> In x l /\ p x = true.
Proof.
  induction l as [|y l IH]; simpl; [discriminate|].
  destruct (p y) eqn:E; intros H.
  - inversion H; subst. auto.
  - destruct (IH H). auto.
Qed.

Lemma find_none {A} (p : A -> bool) (l : list A) :
  JS.find p l = None <-> (forall x, In x l -> p x = false).
Proof.
  induction l as [|y l IH]; simpl.
  - split; [intros _ x []|reflexivity].
  - destruct (p y) eqn:E; split; intros H.
    + discriminate.
    + specialize (H y (or_introl eq_refl)). congruence.
    + intros x [<-|Hx]; [assumption|]. now apply IH.
    + apply IH. intros x Hx. apply H. now right.
Qed.

Lemma compact_in {A} (l : list (option A)) (a : A) :
  In a (JS.compact l) <-> In (Some a) l.
Proof.
  induction l as [|[b|] l IH]; simpl.
  - tauto.
  - rewrite IH. split; intros [H|H]; auto; left; congruence.
  - rewrite IH. split; [auto|]. intros [H|H]; [discriminate|assumption].
Qed.

Lemma role_eqb_eq (a b : Role.t) : Role.eqb a b = true <-> a = b.
Proof. destruct a, b; simpl; split; intros H; congruence. Qed.

(** ** Message translation of the Anthropic adapter *)

Section AnthropicMessages.

Variable Session_find : option nat -> Session.

Lemma toAnthropic_none (m : Message) :
  Anthropic.toAnthropic Session_find m = None <-> role m = Role.system.
Proof.
  unfold Anthropic.toAnthropic. destruct (role m); split; intros H;
    congruence.
Qed.

Lemma translation_step (m : Message) (h : list Message) :
  JS.compact (List.map (Anthropic.toAnthropic Session_find) (m :: h))
  = match Anthropic.toAnthropic Session_find m with
    | Some t => [t]
    | None => []
    end ++ JS.compact (List.map (Anthropic.toAnthropic Session_find) h).
Proof.
  cbn [List.map JS.compact].
  destruct (Anthropic.toAnthropic Session_find m); reflexivity.
Qed.

Lemma non_system_step (m : Message) (h : list Message) :
  spec_non_system (m :: h)
  = match role m with
    | Role.system => spec_non_system h
    | _ => m :: spec_non_system h
    end.
Proof.
  unfold spec_non_system. cbn [List.filter]. destruct (role m); reflexivity.
Qed.

Lemma compact_translation (history : list Message) :
  JS.compact (List.map (Anthropic.toAnthropic Session_find) history)
  = JS.compact (List.map (Anthropic.toAnthropic Session_find)
                         (spec_non_system history)).
Proof.
  induction history as [|m h IH]; [reflexivity|].
  rewrite non_system_step, translation_step.
  destruct (role m) eqn:E;
    try (rewrite (translation_step m (spec_non_system h)), <- IH; reflexivity).
  assert (N : Anthropic.toAnthropic Session_find m = None)
    by now apply toAnthropic_none.
  rewrite N. exact IH.
Qed.

Lemma compact_length_non_system (history : list Message) :
  length (JS.compact (List.map (Anthropic.toAnthropic Session_find) history))
  = length (spec_non_system history).
Proof.
  induction history as [|m h IH]; [reflexivity|].
  rewrite non_system_step, translation_step, length_app, IH.
  unfold Anthropic.toAnthropic. destruct (role m); reflexivity.
Qed.

Lemma chat_system_spec (history : list Message) :
  Anthropic.chat_system history
  = spec_blank_line_joined (spec_system_contents history).
Proof.
  unfold Anthropic.chat_system, JS.join.
  assert (Hc : List.map content
                 (List.filter (fun m => Role.eqb (role m) Role.system) history)
               = spec_system_contents history).
  { induction history as [|m h IH]; simpl; [reflexivity|].
    destruct (role m); simpl; now rewrite IH. }
  rewrite Hc. generalize (spec_system_contents history) as texts.
  induction texts as [|t [|u rest] IH]; simpl; try reflexivity.
  simpl in IH. now rewrite IH.
Qed.

(** C4. The system value [chat] computes is the contents of the system
    messages of the history, in their order, with a blank line between
    them; it is what the [system] field of the request carries (the
    field is left out when that text is empty); and the turns of the
    request are the translations of the messages that are not system
    messages, one turn each and in order, so that no turn comes from a
    system message. *)
Theorem chat_system_side_channel
    (self : Anthropic.AnthropicClient) (mdl : Model)
    (history : list Message) (tools : list Tool) (options : Options) :
  let p := Anthropic.chat_params Session_find self mdl history tools options in
  Anthropic.chat_system history
    = spec_blank_line_joined (spec_system_contents history)
  /\ Anthropic.p_system p
     = (if JS.truthy_string (Anthropic.chat_system history)
        then Some (Anthropic.chat_system history) else None)
  /\ Anthropic.p_messages p
     = JS.compact (List.map (Anthropic.toAnthropic Session_find)
                            (spec_non_system history))
  /\ length (Anthropic.p_messages p) = length (spec_non_system history)
  /\ (forall t, In t (Anthropic.p_messages p) ->
        exists m, In m history /\ role m <> Role.system
                  /\ Anthropic.toAnthropic Session_find m = Some t).
Proof.
  cbv zeta. simpl. repeat split.
  - apply chat_system_spec.
  - apply compact_translation.
  - apply compact_length_non_system.
  - intros t Ht. apply compact_in in Ht. apply in_map_iff in Ht.
    destruct Ht as [m [Hm Hin]]. exists m. repeat split; auto.
    intros Hr. apply toAnthropic_none in Hr. congruence.
Qed.

(** C5. An assistant message with empty content, no thought and no tool
    call is translated into an assistant turn whose only content unit
    is a visible text with the empty string, and that turn is in the
    request of every history the message belongs to. *)
Theorem assistant_empty_turn
    (self : Anthropic.AnthropicClient) (mdl : Model)
    (history : list Message) (tools : list Tool) (options : Options)
    (m : Message) :
  role m = Role.assistant ->
  content m = "" ->
  JS.truthy_opt JS.truthy_string (thought m) = false ->
  toolCalls m = [] ->
  In m history ->
  let turn := {| Anthropic.mp_role := Anthropic.role_assistant;
                 Anthropic.mp_content := [Anthropic.text ""] |} in
  Anthropic.toAnthropic Session_find m = Some turn
  /\ In turn (Anthropic.p_messages
                (Anthropic.chat_params Session_find self mdl history tools options)).
Proof.
  intros Hr Hc Ht Hcalls Hin turn.
  assert (E : Anthropic.toAnthropic Session_find m = Some turn).
  { unfold Anthropic.toAnthropic, Anthropic.assistant.
    rewrite Hr, Hc, Ht, Hcalls. reflexivity. }
  split; [exact E|].
  simpl. apply compact_in. apply in_map_iff. exists m. auto.
Qed.

(** C10. A tool message becomes a user turn with exactly one tool-result
    unit whose nested text is the message's content.  Its [tool_use_id]
    is the id of the call found by scanning the session's messages for
    a call whose id equals [toolCallId]: when such a call exists and
    [toolCallId] is a string, the unit carries that string; when no call
    matches, it carries the empty string, whatever [toolCallId] is. *)
Theorem toolResponse_turn (m : Message) :
  role m = Role.tool ->
  let calls := JS.flatMap toolCalls (messages (Session_find (sessionId m))) in
  exists id,
    Anthropic.toAnthropic Session_find m
      = Some {| Anthropic.mp_role := Anthropic.role_user;
                Anthropic.mp_content :=
                  [Anthropic.tool_result id
                     [Anthropic.text_param (content m)]] |}
    /\ id = Anthropic.call_id_or_empty (Anthropic.find_call Session_find m)
    /\ ((exists c, In c calls /\ tc_id c = toolCallId m) ->
        forall s, toolCallId m = Some s -> id = s)
    /\ ((forall c, In c calls -> tc_id c <> toolCallId m) -> id = "").
Proof.
  intros Hr calls.
  exists (Anthropic.call_id_or_empty (Anthropic.find_call Session_find m)).
  split; [|split; [reflexivity|split]].
  - unfold Anthropic.toAnthropic. rewrite Hr. reflexivity.
  - intros [c [Hc Hid]] s Hs. unfold Anthropic.find_call. fold calls.
    destruct (JS.find _ calls) as [c'|] eqn:F.
    + apply find_some in F. destruct F as [_ F].
      apply strict_eq_true in F. simpl. rewrite F, Hs. apply or_string_some.
    + exfalso. rewrite find_none in F. specialize (F c Hc).
      rewrite <- Hid in F.
      assert (JS.strict_eq (tc_id c) (tc_id c) = true)
        by now apply strict_eq_true.
      congruence.
  - intros Hno. unfold Anthropic.find_call. fold calls.
    destruct (JS.find _ calls) as [c'|] eqn:F; [|reflexivity].
    apply find_some in F. destruct F as [Hin F].
    apply strict_eq_true in F. exfalso. exact (Hno c' Hin F).
Qed.

End AnthropicMessages.

Example system_channel_A_B_hi :
  let history := [Examples.msg Role.system "A"; Examples.msg Role.system "B";
                  Examples.msg Role.user "hi"] in
  let p := Anthropic.chat_params Examples.sessions Examples.anthropic
             Examples.claude history [] (Examples.with_temperature None) in
  Anthropic.p_system p = Some ("A" ++ JS.nl ++ JS.nl ++ "B")%string
  /\ Anthropic.p_messages p
     = [ {| Anthropic.mp_role := Anthropic.role_user;
            Anthropic.mp_content := [Anthropic.text "hi"] |} ].
Proof. split; reflexivity. Qed.

Lemma assistant_empty_turn_witness :
  Anthropic.toAnthropic Examples.sessions (Examples.msg Role.assistant "")
  = Some {| Anthropic.mp_role := Anthropic.role_assistant;
            Anthropic.mp_content := [Anthropic.text ""] |}.
Proof.
  exact (proj1 (assistant_empty_turn Examples.sessions Examples.anthropic
                  Examples.claude [Examples.msg Role.assistant ""] []
                  (Examples.with_temperature None)
                  (Examples.msg Role.assistant "")
                  eq_refl eq_refl eq_refl eq_refl (or_introl eq_refl))).
Defined.

Lemma toolResponse_turn_witness :
  exists id,
    Anthropic.toAnthropic Examples.sessions (Examples.answer "call_1")
    = Some {| Anthropic.mp_role := Anthropic.role_user;
              Anthropic.mp_content :=
                [Anthropic.tool_result id [Anthropic.text_param "sunny"]] |}
    /\ id = "call_1".
Proof.
  destruct (toolResponse_turn Examples.sessions (Examples.answer "call_1")
              eq_refl) as [id [H1 [_ [H3 _]]]].
  exists id. split; [exact H1|].
  apply H3; [|reflexivity].
  exists Examples.call_1. split; [left; reflexivity|reflexivity].
Defined.

Example toolResponse_unmatched :
  Anthropic.toAnthropic Examples.sessions (Examples.answer "call_9")
  = Some {| Anthropic.mp_role := Anthropic.role_user;
            Anthropic.mp_content :=
              [Anthropic.tool_result "" [Anthropic.text_param "sunny"]] |}.
Proof. reflexivity. Qed.

(** ** Numeric options of the Anthropic request *)

Lemma Qltb_lt (x y : Q) : JS.Qltb x y = true <-> (x < y)%Q.
Proof. unfold JS.Qltb, Qlt. apply Z.ltb_lt. Qed.

Lemma Qltb_ge (x y : Q) : JS.Qltb x y = false <-> (y <= x)%Q.
Proof. unfold JS.Qltb, Qle. apply Z.ltb_ge. Qed.

Lemma clamp_finite (q : Q) :
  Anthropic.clamp (JS.Fin q) (JS.Fin (1 # 100)) (JS.Fin 1)
  = if JS.Qltb q (1 # 100) then JS.Fin (1 # 100)
    else if JS.Qltb 1 q then JS.Fin 1 else JS.Fin q.
Proof.
  unfold Anthropic.clamp, JS.Math_max, JS.Math_min. cbn [JS.isNaN orb JS.ltb].
  destruct (JS.Qltb q (1 # 100)); reflexivity.
Qed.

(** C6 as stated fails on a temperature that is not a number: [NaN]
    goes through [Math.max] and [Math.min] and is sent as it is. *)
Lemma clamp_temperature_nan :
  Anthropic.sent_temperature (Examples.with_temperature (Some JS.NaN)) = JS.NaN
  /\ ~ temperature_in_range
         (Anthropic.sent_temperature (Examples.with_temperature (Some JS.NaN))).
Proof. split; [reflexivity|]. intros H. exact H. Qed.

(** C6. The temperature of the request is the clamped one.  For every
    options value whose temperature is absent or is not [NaN] it lies
    in [0.01, 1]: a temperature above 1 (plus infinity included) is sent
    as 1, one below 0.01 (minus infinity included) as 0.01, one inside
    the range unchanged, and an absent one as the default 0.8. *)
Theorem clamp_temperature (options : Options) :
  temperature options <> Some JS.NaN ->
  let sent := Anthropic.sent_temperature options in
  temperature_in_range sent
  /\ (forall find self mdl history tools,
        Anthropic.p_temperature
          (Anthropic.chat_params find self mdl history tools options)
        = Some sent)
  /\ (forall q, temperature options = Some (JS.Fin q) -> (1 < q)%Q ->
        sent = JS.Fin 1)
  /\ (forall q, temperature options = Some (JS.Fin q) -> (q < 1 # 100)%Q ->
        sent = JS.Fin (1 # 100))
  /\ (forall q, temperature options = Some (JS.Fin q) ->
        (1 # 100 <= q)%Q -> (q <= 1)%Q -> sent = JS.Fin q)
  /\ (temperature options = Some JS.PosInf -> sent = JS.Fin 1)
  /\ (temperature options = Some JS.NegInf -> sent = JS.Fin (1 # 100))
  /\ (temperature options = None -> sent = JS.Fin (8 # 10)).
Proof.
  intros Hnan sent.
  assert (P : forall find self mdl history tools,
             Anthropic.p_temperature
               (Anthropic.chat_params find self mdl history tools options)
             = Some sent) by reflexivity.
  revert P. subst sent. unfold Anthropic.sent_temperature.
  destruct (temperature options) as [[| |q|]|] eqn:E; cbn [JS.nullish];
    intros P; [congruence| | | |].
  2: { revert P. rewrite clamp_finite. intros P.
       destruct (JS.Qltb q (1 # 100)) eqn:L; [|destruct (JS.Qltb 1 q) eqn:U];
         try apply Qltb_lt in L; try apply Qltb_ge in L;
         try apply Qltb_lt in U; try apply Qltb_ge in U;
         (split; [simpl; lra|]); (split; [exact P|]);
         repeat split; intros; try discriminate; try reflexivity;
         match goal with
         | H : Some (JS.Fin _) = Some (JS.Fin _) |- _ =>
             inversion H; subst; try reflexivity; exfalso; lra
         end. }
  all: (split; [simpl; lra|]); (split; [exact P|]);
    repeat split; intros; try discriminate; reflexivity.
Qed.

Lemma clamp_temperature_witness :
  Anthropic.sent_temperature (Examples.with_temperature (Some (JS.Fin (15 # 10))))
  = JS.Fin 1.
Proof.
  refine (proj1 (proj2 (proj2
    (clamp_temperature (Examples.with_temperature (Some (JS.Fin (15 # 10)))) _)))
    (15 # 10) eq_refl _).
  - discriminate.
  - reflexivity.
Defined.

(** C7 as stated fails on a declared limit of 0: the metadata carries
    it, and the request carries the default instead. *)
Lemma max_tokens_zero_limit :
  Anthropic.declared_limit (Examples.with_limit (Anthropic.num 0))
  = Some (Anthropic.num 0)
  /\ Anthropic.p_max_tokens
       (Anthropic.chat_params Examples.sessions Examples.anthropic
          (Examples.with_limit (Anthropic.num 0)) [] []
          (Examples.with_temperature None))
     = Anthropic.num 1024
  /\ Anthropic.num 1024 <> Anthropic.num 0.
Proof. repeat split. discriminate. Qed.

(** C7. The request always carries [max_tokens]: the limit the model's
    metadata declares when that value is truthy (not 0, not empty), and
    otherwise, for a missing or a falsy declaration, the default of the
    endpoint, 4096 for MiniMax and 1024 for Anthropic. *)
Theorem max_tokens_always_set
    (find : option nat -> Session) (self : Anthropic.AnthropicClient)
    (mdl : Model) (history : list Message) (tools : list Tool)
    (options : Options) :
  let sent := Anthropic.p_max_tokens
                (Anthropic.chat_params find self mdl history tools options) in
  (forall v, Anthropic.declared_limit mdl = Some v -> JS.truthy v = true ->
     sent = v)
  /\ (Anthropic.declared_limit mdl = None
      \/ (exists v, Anthropic.declared_limit mdl = Some v
                    /\ JS.truthy v = false) ->
      sent = Anthropic.num (if Anthropic.isMiniMax self then 4096 else 1024)).
Proof.
  cbv zeta. cbn [Anthropic.chat_params Anthropic.p_max_tokens].
  unfold Anthropic.max_tokens_for, Anthropic.default_max_tokens. split.
  - intros v Hv Ht. rewrite Hv, Ht. reflexivity.
  - intros [Hn|[v [Hv Hf]]].
    + rewrite Hn. now destruct (Anthropic.isMiniMax self).
    + rewrite Hv, Hf. now destruct (Anthropic.isMiniMax self).
Qed.

Lemma max_tokens_always_set_witness :
  Anthropic.p_max_tokens
    (Anthropic.chat_params Examples.sessions Examples.anthropic
       (Examples.with_limit (Anthropic.num 8192)) [] []
       (Examples.with_temperature None))
  = Anthropic.num 8192
  /\ Anthropic.p_max_tokens
       (Anthropic.chat_params Examples.sessions Examples.anthropic
          Examples.claude [] [] (Examples.with_temperature None))
     = Anthropic.num 1024.
Proof.
  split.
  - exact (proj1 (max_tokens_always_set Examples.sessions Examples.anthropic
                    (Examples.with_limit (Anthropic.num 8192)) [] []
                    (Examples.with_temperature None))
                 (Anthropic.num 8192) eq_refl eq_refl).
  - exact (proj2 (max_tokens_always_set Examples.sessions Examples.anthropic
                    Examples.claude [] [] (Examples.with_temperature None))
                 (or_introl eq_refl)).
Defined.

(** ** Connectivity of the Anthropic adapter *)

(** C3 as stated fails: with an empty credential no adapter is built,
    so the probe does not answer [false]; the constructor raises. *)
Lemma empty_credential_no_adapter :
  Anthropic.constructor (Examples.props "")
  = Raise "Anthropic apiKey obrigatório"
  /\ fst (Anthropic.construct_and_probe unit (fun _ => Ok tt)
            (Examples.props "") [])
     <> Ok false.
Proof. split; [reflexivity|discriminate]. Qed.

(** C3. With an empty credential the constructor of the adapter raises
    before any request is made, so no adapter exists to be probed; and
    on every adapter that was built, [connected] never raises: it makes
    one request and answers [true] when the request succeeds and
    [false] when it fails. *)
Theorem empty_credential_rejected
    (Response : Type) (create : Anthropic.CreateParams -> Result Response)
    (options : ClientProps) (calls : list Anthropic.CreateParams) :
  apiKey options = "" ->
  Anthropic.constructor options = Raise "Anthropic apiKey obrigatório"
  /\ Anthropic.construct_and_probe Response create options calls
     = (Raise "Anthropic apiKey obrigatório", calls)
  /\ (forall self calls',
        exists b,
          Anthropic.connected Response create self calls'
          = (Ok b, calls' ++ [Anthropic.ping self])
          /\ (b = true <-> exists r, create (Anthropic.ping self) = Ok r)).
Proof.
  intros Hkey.
  assert (C : Anthropic.constructor options
              = Raise "Anthropic apiKey obrigatório").
  { unfold Anthropic.constructor. rewrite Hkey. reflexivity. }
  split; [exact C|split].
  - unfold Anthropic.construct_and_probe. rewrite C. reflexivity.
  - intros self calls'. unfold Anthropic.connected.
    destruct (create (Anthropic.ping self)) as [r|e] eqn:E; simpl.
    + exists true. split; [reflexivity|]. split; eauto.
    + exists false. split; [reflexivity|].
      split; [discriminate|]. intros [r Hr]. discriminate.
Qed.

Lemma empty_credential_rejected_witness :
  Anthropic.construct_and_probe unit (fun _ => Ok tt) (Examples.props "") []
  = (Raise "Anthropic apiKey obrigatório", []).
Proof.
  exact (proj1 (proj2 (empty_credential_rejected unit (fun _ => Ok tt)
                         (Examples.props "") [] eq_refl))).
Defined.

(** ** Tool definitions *)

Lemma Object_map_values {A B} (obj : gmap string A) (g : A -> B) :
  Gemini.Object_map obj (fun name v => (name, g v)) = g <$> obj.
Proof.
  unfold Gemini.Object_map.
  rewrite (list_fmap_ext _ (prod_map id g))
    by (intros ? [? ?] ?; reflexivity).
  rewrite list_to_map_fmap. now rewrite list_to_map_to_list.
Qed.

Lemma fromOne_properties (t : Tool) :
  Gemini.fp_properties (Gemini.fd_parameters (Gemini.fromOne t))
  = Gemini.convert <$> properties (parameters t).
Proof. unfold Gemini.fromOne. simpl. apply Object_map_values. Qed.

Lemma get_own {A} (key : string) (fields : list (string * A)) (a : A) :
  JS.assoc key fields = Some a -> JS.get key fields = JS.Own a.
Proof. unfold JS.get. now intros ->. Qed.

Lemma toGeminiType_unknown (ty : string) :
  ~ In ty ["string"; "number"; "boolean"; "integer"; "array"; "object"] ->
  ~ In ty JS.Object_prototype ->
  Gemini.toGeminiType ty = Gemini.Tag Gemini.STRING.
Proof.
  intros H P. unfold Gemini.toGeminiType, JS.get, Gemini.type_table,
    JS.Object_prototype in *. simpl.
  repeat match goal with
  | |- context [String.eqb ty ?k] =>
      destruct (String.eqb_spec ty k) as [->|_];
      [exfalso; first [apply H; simpl; tauto | apply P; simpl; tauto]|]
  end.
  reflexivity.
Qed.

(** A type named like a property of [Object.prototype] finds that
    property in the table, not the string tag. *)
Example toGeminiType_inherited :
  Gemini.toGeminiType "constructor" = Gemini.Prototype "constructor"
  /\ Gemini.toGeminiType "toString" = Gemini.Prototype "toString"
  /\ Gemini.toGeminiType "__proto__" = Gemini.Prototype "__proto__".
Proof. repeat split. Qed.

(** C8 as stated fails on the types: the Gemini translation leaves an
    absent type absent rather than spelling it as a string, and the
    Anthropic translation hands every type over as it is, an unknown
    one included. *)
Lemma tool_types_not_defaulted :
  Gemini.schema_type <$>
    (Gemini.fp_properties (Gemini.fd_parameters (Gemini.fromOne Examples.get_weather))
       !! "when")
  = Some (Gemini.Kept None)
  /\ Gemini.Kept None <> Gemini.Enum (Gemini.Tag Gemini.STRING)
  /\ prop_type <$>
       (properties (Anthropic.tf_parameters (Anthropic.normalize Examples.get_weather))
          !! "day")
     = Some (Some "date")
  /\ Some "date" <> Some "string".
Proof.
  split; [|split; [discriminate|split; [|discriminate]]].
  - rewrite fromOne_properties, lookup_fmap. simpl.
    rewrite lookup_insert_ne by discriminate.
    rewrite lookup_insert_ne by discriminate.
    rewrite lookup_insert_eq. reflexivity.
  - simpl. rewrite lookup_insert_ne by discriminate.
    rewrite lookup_insert_eq. reflexivity.
Qed.

(** C8. Both translations keep the tool's name, description and
    required list, and the names of the properties.  The Anthropic one
    hands the properties over unchanged and sets the schema type to
    [object].  The Gemini one keeps each property's description and
    replaces its type by the value of [toGeminiType] only when the type
    is a non-empty string and the property has no [anyOf]: the six
    known names get their own tag, and any other name that is not a
    property name of [Object.prototype] the string tag; an absent or
    empty type, or the type of a property with [anyOf], is left as it
    is. *)
Theorem tool_translation_preserves (t : Tool) :
  (Anthropic.tf_name (Anthropic.normalize t) = tool_name t
   /\ Anthropic.tf_description (Anthropic.normalize t) = tool_description t
   /\ required (Anthropic.tf_parameters (Anthropic.normalize t))
      = required (parameters t)
   /\ properties (Anthropic.tf_parameters (Anthropic.normalize t))
      = properties (parameters t)
   /\ params_type (Anthropic.tf_parameters (Anthropic.normalize t)) = "object")
  /\ (Gemini.fd_name (Gemini.fromOne t) = tool_name t
      /\ Gemini.fd_description (Gemini.fromOne t) = tool_description t
      /\ Gemini.fp_required (Gemini.fd_parameters (Gemini.fromOne t))
         = required (parameters t)
      /\ dom (Gemini.fp_properties (Gemini.fd_parameters (Gemini.fromOne t)))
         = dom (properties (parameters t))
      /\ (forall name p,
            properties (parameters t) !! name = Some p ->
            exists sch,
              Gemini.fp_properties (Gemini.fd_parameters (Gemini.fromOne t))
                !! name = Some sch
              /\ Gemini.schema_description sch = prop_description p
              /\ Gemini.schema_anyOf sch = prop_anyOf p
              /\ Gemini.schema_type sch
                 = match prop_type p, prop_anyOf p with
                   | Some ty, None =>
                       if JS.truthy_string ty
                       then Gemini.Enum (Gemini.toGeminiType ty)
                       else Gemini.Kept (Some ty)
                   | ty, _ => Gemini.Kept ty
                   end))
  /\ (Gemini.toGeminiType "string" = Gemini.Tag Gemini.STRING
      /\ Gemini.toGeminiType "number" = Gemini.Tag Gemini.NUMBER
      /\ Gemini.toGeminiType "boolean" = Gemini.Tag Gemini.BOOLEAN
      /\ Gemini.toGeminiType "integer" = Gemini.Tag Gemini.INTEGER
      /\ Gemini.toGeminiType "array" = Gemini.Tag Gemini.ARRAY
      /\ Gemini.toGeminiType "object" = Gemini.Tag Gemini.OBJECT
      /\ (forall ty,
            ~ In ty ["string"; "number"; "boolean"; "integer"; "array"; "object"] ->
            ~ In ty JS.Object_prototype ->
            Gemini.toGeminiType ty = Gemini.Tag Gemini.STRING)).
Proof.
  split; [repeat split|split].
  - split; [reflexivity|]. split; [reflexivity|]. split; [reflexivity|].
    split.
    + rewrite fromOne_properties. apply dom_fmap_L.
    + intros name p Hp. exists (Gemini.convert p).
      rewrite fromOne_properties, lookup_fmap, Hp.
      split; [reflexivity|]. split; [reflexivity|]. split; [reflexivity|].
      unfold Gemini.convert. simpl.
      destruct (prop_type p) as [ty|], (prop_anyOf p) as [a|]; simpl;
        rewrite ?andb_false_r, ?andb_true_r; reflexivity.
  - repeat split; try reflexivity. apply toGeminiType_unknown.
Qed.

(** ** The engine registry *)

Lemma filter_r_total {A} (p : A -> bool) (l : list A) :
  Registry.filter_r (fun x => Ok (p x)) l = Ok (List.filter p l).
Proof.
  induction l as [|x l IH]; simpl; [reflexivity|].
  rewrite IH. now destruct (p x).
Qed.

Section RegistryFacts.

Variables Ollama OpenAI Gemini : ClientProps -> Result Registry.Client.
Variable JSON_parse : string -> Result Registry.ClientOptions.
Variable sortBy_name : list Model -> list Model.

(** Sorting reorders; it neither adds nor drops a model. *)
Hypothesis sortBy_name_perm : forall l, Permutation (sortBy_name l) l.

Local Abbreviation load :=
  (Registry.fromSql Ollama OpenAI Gemini JSON_parse sortBy_name).
Local Abbreviation adapter := (Registry.client Ollama OpenAI Gemini).
Local Abbreviation fresh_engine := Registry.fresh_engine.

Lemma client_unknown_kind (e : Registry.Engine) :
  ~ In (Registry.engine_type e) ["ollama"; "openai"; "gemini"; "openai-compat"] ->
  Registry.engine_type e <> "constructor" ->
  adapter e = None.
Proof.
  intros H K. unfold Registry.client, JS.get, Registry.client_table. simpl.
  repeat match goal with
  | |- context [String.eqb (Registry.engine_type e) ?k] =>
      destruct (String.eqb_spec (Registry.engine_type e) k) as [Hk|_];
      [first [ exfalso; apply H; rewrite Hk; simpl; tauto
             | exfalso; exact (K Hk)
             | unfold Registry.new_inherited; rewrite Hk; reflexivity ]|]
  end.
  reflexivity.
Qed.

Lemma client_constructor_kind (e : Registry.Engine) :
  Registry.engine_type e = "constructor" ->
  adapter e
  = Some (Registry.Plain
            {| apiKey := Registry.opt_apiKey (Registry.engine_options e);
               url := Registry.opt_url (Registry.engine_options e);
               props_engineId := Registry.engine_id e |}).
Proof.
  intros K. unfold Registry.client, JS.get, Registry.client_table.
  rewrite K. reflexivity.
Qed.

Lemma client_plain_kind (e : Registry.Engine) (props : ClientProps) :
  adapter e = Some (Registry.Plain props) ->
  Registry.engine_type e = "constructor".
Proof.
  destruct (String.eqb_spec (Registry.engine_type e) "constructor")
    as [K|K]; [intros _; exact K|].
  destruct (in_dec String.string_dec (Registry.engine_type e)
              ["ollama"; "openai"; "gemini"; "openai-compat"]) as [I|I].
  - unfold Registry.client, JS.get, Registry.client_table.
    simpl in I.
    destruct I as [<-|[<-|[<-|[<-|[]]]]]; cbn;
      [ destruct (Ollama _) | destruct (OpenAI _)
      | destruct (Gemini _) | destruct (OpenAI _) ];
      intros Hd; discriminate Hd.
  - rewrite (client_unknown_kind e I K). intros Hd. discriminate Hd.
Qed.

Lemma filter_allowed_all (kind : string) (ms : list Model) :
  JS.assoc kind Registry.AVAILABLE_MODELS = Some Registry.all ->
  Registry.filter_r (Registry.allowed kind) ms = Ok ms.
Proof.
  intros H. unfold Registry.allowed. rewrite (get_own _ _ _ H).
  rewrite (filter_r_total (fun _ => true)).
  f_equal. induction ms as [|m ms IH]; simpl; congruence.
Qed.

Lemma filter_allowed_names (kind : string) (l : list string) (ms : list Model) :
  JS.assoc kind Registry.AVAILABLE_MODELS = Some (Registry.names l) ->
  Registry.filter_r (Registry.allowed kind) ms
  = Ok (List.filter (fun m => existsb (String.eqb (model_name m)) l) ms).
Proof.
  intros H. unfold Registry.allowed. rewrite (get_own _ _ _ H).
  apply filter_r_total.
Qed.

Lemma fromSql_cases (row : Registry.Row) (opts : Registry.ClientOptions) :
  JSON_parse (Registry.row_options row) = Ok opts ->
  let engine := fresh_engine row opts in
  let id := Registry.row_id row in
  load row
  = match adapter engine with
    | None => (Ok engine, [])
    | Some (Registry.Plain _) =>
        (Raise "TypeError: engine.client method is not a function", [])
    | Some (Registry.Adapter c) =>
        if Registry.connected c then
          (Ok match Registry.models c with
              | Ok ms =>
                  match Registry.filter_r
                          (Registry.allowed (Registry.row_type row)) ms with
                  | Ok kept => Registry.with_models engine (sortBy_name kept)
                  | Raise _ => engine
                  end
              | Raise _ => engine
              end,
           [Registry.EvConnected id; Registry.EvModels id])
        else (Ok engine, [Registry.EvConnected id])
    end.
Proof.
  intros H engine id. unfold Registry.fromSql. rewrite H.
  fold engine. unfold Registry.on_client.
  destruct (adapter engine) as [[c|props]|]; [|reflexivity|reflexivity].
  destruct (Registry.connected c); [|reflexivity].
  destruct (Registry.models c) as [ms|err]; [|reflexivity].
  simpl. destruct (Registry.filter_r _ ms); reflexivity.
Qed.

(** X22. Loading an engine row whose options parse, and whose kind is
    not [constructor], never raises, whatever its adapter does; for the
    kind [constructor] it raises before any call to an adapter.
    [models] is called only after [connected] was called and answered
    [true].  Without an adapter (a kind that is neither in the table nor
    [constructor], or a constructor that raised), with an adapter that
    is not connected, or with one whose [models] fails, the engine keeps
    an empty model list.  Otherwise the list is the adapter's, all of it
    under the [all] sentinel and else the models whose name is in the
    allow-list of the kind, sorted by name. *)
Theorem model_sync (row : Registry.Row) (opts : Registry.ClientOptions) :
  JSON_parse (Registry.row_options row) = Ok opts ->
  let engine := fresh_engine row opts in
  let id := Registry.row_id row in
  (Registry.row_type row <> "constructor" ->
   exists e, fst (load row) = Ok e
             /\ Registry.with_models e [] = engine)
  /\ (Registry.row_type row = "constructor" ->
      load row
      = (Raise "TypeError: engine.client method is not a function", []))
  /\ (In (Registry.EvModels id) (snd (load row)) ->
      snd (load row) = [Registry.EvConnected id; Registry.EvModels id]
      /\ exists c, adapter engine = Some (Registry.Adapter c)
                   /\ Registry.connected c = true)
  /\ (adapter engine = None -> load row = (Ok engine, []))
  /\ (forall c, adapter engine = Some (Registry.Adapter c) ->
        Registry.connected c = false ->
        load row = (Ok engine, [Registry.EvConnected id]))
  /\ (forall c err, adapter engine = Some (Registry.Adapter c) ->
        Registry.connected c = true ->
        Registry.models c = Raise err ->
        load row
        = (Ok engine, [Registry.EvConnected id; Registry.EvModels id]))
  /\ (forall c ms, adapter engine = Some (Registry.Adapter c) ->
        Registry.connected c = true ->
        Registry.models c = Ok ms ->
        JS.assoc (Registry.row_type row) Registry.AVAILABLE_MODELS
        = Some Registry.all ->
        load row
        = (Ok (Registry.with_models engine (sortBy_name ms)),
           [Registry.EvConnected id; Registry.EvModels id])
        /\ forall m, In m (sortBy_name ms) <-> In m ms)
  /\ (forall c ms l, adapter engine = Some (Registry.Adapter c) ->
        Registry.connected c = true ->
        Registry.models c = Ok ms ->
        JS.assoc (Registry.row_type row) Registry.AVAILABLE_MODELS
        = Some (Registry.names l) ->
        let kept :=
          List.filter (fun m => existsb (String.eqb (model_name m)) l) ms in
        load row
        = (Ok (Registry.with_models engine (sortBy_name kept)),
           [Registry.EvConnected id; Registry.EvModels id])
        /\ forall m, In m (sortBy_name kept)
                     <-> In m ms /\ In (model_name m) l)
  /\ (~ In (Registry.row_type row)
          ["ollama"; "openai"; "gemini"; "openai-compat"] ->
      Registry.row_type row <> "constructor" ->
      adapter engine = None).
Proof.
  intros H engine id. pose proof (fromSql_cases row opts H) as L.
  cbv zeta in L. fold engine id in L.
  assert (Perm : forall l m, In m (sortBy_name l) <-> In m l).
  { intros l m. split; apply Permutation_in;
      [apply sortBy_name_perm|apply Permutation_sym, sortBy_name_perm]. }
  split; [|split; [|split; [|split; [|split; [|split; [|split; [|split]]]]]]].
  - intros K. rewrite L.
    destruct (adapter engine) as [[c|props]|] eqn:A;
      [| exfalso; exact (K (client_plain_kind engine props A))
       | eexists; split; reflexivity].
    destruct (Registry.connected c); [|eexists; split; reflexivity].
    destruct (Registry.models c) as [ms|err]; [|eexists; split; reflexivity].
    destruct (Registry.filter_r _ ms); eexists; split; reflexivity.
  - intros K. rewrite L, (client_constructor_kind engine K). reflexivity.
  - rewrite L. destruct (adapter engine) as [[c|props]|]; [|intros []|intros []].
    destruct (Registry.connected c) eqn:Hc.
    + intros _. split; [reflexivity|]. eauto.
    + simpl. intros [Hd|[]]. discriminate.
  - intros Hn. rewrite L, Hn. reflexivity.
  - intros c Hs Hc. rewrite L, Hs, Hc. reflexivity.
  - intros c err Hs Hc Hm. rewrite L, Hs, Hc, Hm. reflexivity.
  - intros c ms Hs Hc Hm Ha. split; [|apply Perm].
    rewrite L, Hs, Hc, Hm, (filter_allowed_all _ _ Ha). reflexivity.
  - intros c ms l Hs Hc Hm Ha kept. split.
    + rewrite L, Hs, Hc, Hm, (filter_allowed_names _ _ _ Ha). reflexivity.
    + intros m. rewrite Perm. unfold kept. rewrite filter_In.
      apply and_iff_compat_l. rewrite existsb_exists. split.
      * intros [x [Hx Hq]]. apply String.eqb_eq in Hq. now subst.
      * intros Hin. exists (model_name m). split; [assumption|].
        apply String.eqb_refl.
  - intros Hk K. apply client_unknown_kind; assumption.
Qed.

End RegistryFacts.

Lemma model_sync_witness :
  Registry.fromSql Examples.ollama_down Examples.openai_up
    Examples.gemini_failing Examples.parse_options Examples.unsorted
    (Examples.row "openai")
  = (Ok {| Registry.engine_id := 2; Registry.engine_name := "openai";
           Registry.engine_type := "openai";
           Registry.engine_options :=
             {| Registry.opt_url := "https://api.openai.com/v1";
                Registry.opt_apiKey := "sk-test" |};
           Registry.engine_models := [Examples.gpt "gpt-4o"] |},
     [Registry.EvConnected 2; Registry.EvModels 2]).
Proof.
  pose proof (model_sync Examples.ollama_down Examples.openai_up
                Examples.gemini_failing Examples.parse_options
                Examples.unsorted (fun l => Permutation_refl l)
                (Examples.row "openai") _ eq_refl) as W.
  destruct W as [_ [_ [_ [_ [_ [_ [_ [W _]]]]]]]].
  exact (proj1 (W _ _ _ eq_refl eq_refl eq_refl eq_refl)).
Defined.

(** C9. An engine row of kind [constructor] finds [Object] in the kind
    table: the getter returns the plain object of the options, which is
    no adapter and has no [connected], and loading the row raises a
    [TypeError] outside the [try] of [fromSql] instead of returning the
    engine with an empty model list.  A kind that the table neither has
    nor inherits, here [mistral], gives no adapter and an engine with no
    model. *)
Theorem fromSql_constructor_kind :
  Registry.client Examples.ollama_down Examples.openai_up
    Examples.gemini_failing
    (Registry.fresh_engine (Examples.row "constructor")
       {| Registry.opt_url := "https://api.openai.com/v1";
          Registry.opt_apiKey := "sk-test" |})
  = Some (Registry.Plain {| apiKey := "sk-test";
                            url := "https://api.openai.com/v1";
                            props_engineId := 2 |})
  /\ Registry.fromSql Examples.ollama_down Examples.openai_up
       Examples.gemini_failing Examples.parse_options Examples.unsorted
       (Examples.row "constructor")
     = (Raise "TypeError: engine.client method is not a function", [])
  /\ Registry.fromSql Examples.ollama_down Examples.openai_up
       Examples.gemini_failing Examples.parse_options Examples.unsorted
       (Examples.row "mistral")
     = (Ok (Registry.fresh_engine (Examples.row "mistral")
              {| Registry.opt_url := "https://api.openai.com/v1";
                 Registry.opt_apiKey := "sk-test" |}),
        []).
Proof. repeat split. Qed.

Example model_sync_isolated :
  List.map (fun kind =>
              fst (Registry.fromSql Examples.ollama_down Examples.openai_up
                     Examples.gemini_failing Examples.parse_options
                     Examples.unsorted (Examples.row kind)))
           ["ollama"; "gemini"; "mistral"; "toString"; "__proto__"; "openai"]
  = List.map (fun kind_models =>
                Ok {| Registry.engine_id := 2;
                      Registry.engine_name := fst kind_models;
                      Registry.engine_type := fst kind_models;
                      Registry.engine_options :=
                        {| Registry.opt_url := "https://api.openai.com/v1";
                           Registry.opt_apiKey := "sk-test" |};
                      Registry.engine_models := snd kind_models |})
             [("ollama", []); ("gemini", []); ("mistral", []);
              ("toString", []); ("__proto__", []);
              ("openai", [Examples.gpt "gpt-4o"])].
Proof. reflexivity. Qed.

(** ** The dispatch loop *)

Lemma with_id_same (call : ToolCall) (id : string) :
  tc_id call = Some id -> Dispatch.with_id call id = call.
Proof. destruct call; simpl; intros ->; reflexivity. Qed.

Lemma session_messages_app (sid : nat) (w : Dispatch.World)
    (added : list Message) (st : list Message) (n : nat)
    (tr : list Dispatch.Event) :
  st = Dispatch.store w ++ added ->
  forallb (Dispatch.in_session sid) added = true ->
  Dispatch.session_messages sid
    {| Dispatch.store := st; Dispatch.uuids := n; Dispatch.trace := tr |}
  = Dispatch.session_messages sid w ++ added.
Proof.
  intros -> Hall. unfold Dispatch.session_messages. simpl.
  rewrite List.filter_app. f_equal.
  induction added as [|m l IH]; [reflexivity|].
  simpl in Hall. apply andb_true_iff in Hall. destruct Hall as [Hm Hl].
  simpl. rewrite Hm, (IH Hl). reflexivity.
Qed.

Section DispatchFacts.

Variable uuid4 : nat -> string.
Variable session_tools : nat -> Result (list Tool).
Variable Engine_client : option nat -> option Dispatch.ChatFn.
Variable call_mcp_tool :
  nat -> string -> list (string * JS.value) -> Result string.

Local Abbreviation run :=
  (Dispatch.dispatch uuid4 session_tools Engine_client call_mcp_tool).
Local Abbreviation round :=
  (Dispatch.tool_round uuid4 call_mcp_tool).

(** What [dispatch] does once the model has replied. *)
Lemma dispatch_reply (fuel : nat) (s : Session) (mdl : Model)
    (w : Dispatch.World) (tools : list Tool) (chat : Dispatch.ChatFn)
    (message : Message) :
  session_tools (session_id s) = Ok tools ->
  Engine_client (model_engineId mdl) = Some chat ->
  chat mdl (Dispatch.session_messages (session_id s) w) tools
       (Dispatch.options_of s) = Ok message ->
  let sid := session_id s in
  let w2 := Dispatch.log (Dispatch.EvChat (Dispatch.session_messages sid w))
              (Dispatch.log (Dispatch.EvTools sid) w) in
  run (S fuel) s mdl w
  = match toolCalls message with
    | call :: _ =>
        match round sid call w2 with
        | (Raise err, w3) => (Raise err, w3)
        | (Ok _, w3) => run fuel s mdl w3
        end
    | [] =>
        (Ok (Dispatch.stamp sid mdl message),
         Dispatch.save (Dispatch.stamp sid mdl message) w2)
    end.
Proof.
  intros Ht He Hc sid w2. subst sid w2. cbn [Dispatch.dispatch].
  rewrite Ht, He.
  change (Dispatch.session_messages (session_id s)
            (Dispatch.log (Dispatch.EvTools (session_id s)) w))
    with (Dispatch.session_messages (session_id s) w).
  rewrite Hc. reflexivity.
Qed.

(** The identifier a call ends up with. *)
Lemma ensure_id_cases (call : ToolCall) (w : Dispatch.World) :
  (exists id, tc_id call = Some id /\ id <> ""
              /\ Dispatch.ensure_id uuid4 call w = (call, w))
  \/ (JS.truthy_opt JS.truthy_string (tc_id call) = false
      /\ Dispatch.ensure_id uuid4 call w
         = (Dispatch.with_id call (uuid4 (Dispatch.uuids w)),
            {| Dispatch.store := Dispatch.store w;
               Dispatch.uuids := S (Dispatch.uuids w);
               Dispatch.trace :=
                 Dispatch.trace w
                 ++ [Dispatch.EvUuid (uuid4 (Dispatch.uuids w))] |})).
Proof.
  unfold Dispatch.ensure_id.
  destruct (JS.truthy_opt JS.truthy_string (tc_id call)) eqn:E.
  - left. destruct (tc_id call) as [id|]; [|discriminate].
    exists id. repeat split. intros ->. discriminate.
  - right. split; reflexivity.
Qed.

(** C1. Once the model has replied: a reply without tool call is
    stamped with the session, the engine and the model, persisted and
    returned.  A reply with tool calls is handled through its first call
    only: the call gets a non-empty id (its own, or a fresh one when
    its own is empty or absent); the tool collaborator is invoked with
    the call's name and arguments; then an assistant message carrying
    exactly that call and a tool message carrying the collaborator's
    answer under that id are persisted, in this order; and the loop
    starts again on the history extended by these two messages, no
    other call of the reply having been touched. *)
Theorem dispatch_first_tool_call (fuel : nat) (s : Session) (mdl : Model)
    (w : Dispatch.World) (tools : list Tool) (chat : Dispatch.ChatFn)
    (message : Message) :
  (forall n, uuid4 n <> "") ->
  session_tools (session_id s) = Ok tools ->
  Engine_client (model_engineId mdl) = Some chat ->
  chat mdl (Dispatch.session_messages (session_id s) w) tools
       (Dispatch.options_of s) = Ok message ->
  let sid := session_id s in
  let history := Dispatch.session_messages sid w in
  (toolCalls message = [] ->
   let final := Dispatch.stamp sid mdl message in
   run (S fuel) s mdl w
   = (Ok final,
      {| Dispatch.store := Dispatch.store w ++ [final];
         Dispatch.uuids := Dispatch.uuids w;
         Dispatch.trace :=
           Dispatch.trace w
           ++ [Dispatch.EvTools sid; Dispatch.EvChat history;
               Dispatch.EvSave final] |})
   /\ sessionId final = Some sid
   /\ engineId final = model_engineId mdl
   /\ msg_model final = Some (Dispatch.String_of (model_id mdl))
   /\ content final = content message)
  /\ (forall call rest text,
        toolCalls message = call :: rest ->
        call_mcp_tool sid (tc_name call) (tc_arguments call) = Ok text ->
        exists id fresh,
          id <> ""
          /\ (JS.truthy_opt JS.truthy_string (tc_id call) = true ->
              tc_id call = Some id /\ fresh = [])
          /\ (JS.truthy_opt JS.truthy_string (tc_id call) = false ->
              id = uuid4 (Dispatch.uuids w) /\ fresh = [Dispatch.EvUuid id])
          /\ let asked :=
               {| role := Role.assistant; content := ""; thought := None;
                  toolCalls := [Dispatch.with_id call id]; toolCallId := None;
                  sessionId := Some sid; engineId := None;
                  msg_model := None |} in
             let answered :=
               {| role := Role.tool; content := text; thought := None;
                  toolCalls := []; toolCallId := Some id;
                  sessionId := Some sid; engineId := None;
                  msg_model := None |} in
             let w' :=
               {| Dispatch.store := Dispatch.store w ++ [asked; answered];
                  Dispatch.uuids := Dispatch.uuids w + length fresh;
                  Dispatch.trace :=
                    Dispatch.trace w
                    ++ [Dispatch.EvTools sid; Dispatch.EvChat history]
                    ++ fresh
                    ++ [Dispatch.EvInvoke sid (tc_name call) (tc_arguments call);
                        Dispatch.EvAddMessage asked;
                        Dispatch.EvAddMessage answered] |} in
             run (S fuel) s mdl w = run fuel s mdl w'
             /\ Dispatch.session_messages sid w'
                = history ++ [asked; answered]).
Proof.
  intros Hu Ht He Hc sid history.
  pose proof (dispatch_reply fuel s mdl w tools chat message Ht He Hc) as R.
  cbv zeta in R. fold sid in R. fold history in R. split.
  - intros Hnil final. rewrite R, Hnil.
    unfold Dispatch.save, Dispatch.persist, Dispatch.log. simpl.
    rewrite <- !app_assoc. simpl. repeat split.
  - intros call rest text Hcalls Hcall. rewrite R, Hcalls.
    unfold Dispatch.tool_round.
    destruct (ensure_id_cases call
                (Dispatch.log (Dispatch.EvChat history)
                   (Dispatch.log (Dispatch.EvTools sid) w)))
      as [[id [Hid [Hne E]]]|[Hf E]]; rewrite E.
    + exists id, []. rewrite Hcall. split; [exact Hne|].
      split; [intros _; auto|]. split.
      { intros Hfalse. rewrite Hid in Hfalse. simpl in Hfalse.
        apply truthy_string_false in Hfalse. contradiction. }
      cbv zeta. rewrite (with_id_same call id Hid), Hid. split.
      * unfold Dispatch.addMessage, Dispatch.persist, Dispatch.log. simpl.
        rewrite Nat.add_0_r, <- !app_assoc. simpl. reflexivity.
      * apply session_messages_app; [reflexivity|].
        simpl. unfold Dispatch.in_session. simpl. fold sid.
        now rewrite Nat.eqb_refl.
    + exists (uuid4 (Dispatch.uuids w)), [Dispatch.EvUuid (uuid4 (Dispatch.uuids w))].
      cbn [Dispatch.with_id tc_name tc_arguments tc_id]. rewrite Hcall.
      split; [apply Hu|]. split; [intros Htrue; congruence|].
      split; [intros _; auto|]. cbv zeta. split.
      * unfold Dispatch.addMessage, Dispatch.persist, Dispatch.log. simpl.
        rewrite Nat.add_1_r, <- !app_assoc. simpl. reflexivity.
      * apply session_messages_app; [reflexivity|].
        simpl. unfold Dispatch.in_session. simpl. fold sid.
        now rewrite Nat.eqb_refl.
Qed.

(** C2. When the tool collaborator raises, [dispatch] does not catch
    it: the failure reaches the caller, and neither the assistant
    message of the call nor a tool message has been persisted.  Only a
    text the collaborator returns, whatever it says, becomes the content
    of the tool message, after which the loop goes on. *)
Theorem tool_failure_reaches_caller (fuel : nat) (s : Session) (mdl : Model)
    (w : Dispatch.World) (tools : list Tool) (chat : Dispatch.ChatFn)
    (message : Message) (call : ToolCall) (rest : list ToolCall) :
  session_tools (session_id s) = Ok tools ->
  Engine_client (model_engineId mdl) = Some chat ->
  chat mdl (Dispatch.session_messages (session_id s) w) tools
       (Dispatch.options_of s) = Ok message ->
  toolCalls message = call :: rest ->
  let sid := session_id s in
  (forall err,
     call_mcp_tool sid (tc_name call) (tc_arguments call) = Raise err ->
     exists w',
       run (S fuel) s mdl w = (Raise err, w')
       /\ Dispatch.store w' = Dispatch.store w
       /\ forall e, In e (Dispatch.trace w') ->
                    match e with
                    | Dispatch.EvAddMessage _ | Dispatch.EvSave _ =>
                        In e (Dispatch.trace w)
                    | _ => True
                    end)
  /\ (forall text,
        call_mcp_tool sid (tc_name call) (tc_arguments call) = Ok text ->
        exists w' before answered,
          run (S fuel) s mdl w = run fuel s mdl w'
          /\ Dispatch.store w' = before ++ [answered]
          /\ role answered = Role.tool
          /\ content answered = text).
Proof.
  intros Ht He Hc Hcalls sid.
  pose proof (dispatch_reply fuel s mdl w tools chat message Ht He Hc) as R.
  cbv zeta in R. fold sid in R. rewrite Hcalls in R.
  unfold Dispatch.tool_round in R.
  set (w2 := Dispatch.log _ (Dispatch.log _ w)) in R.
  assert (Hname : forall c' w1, Dispatch.ensure_id uuid4 call w2 = (c', w1) ->
            tc_name c' = tc_name call /\ tc_arguments c' = tc_arguments call
            /\ Dispatch.store w1 = Dispatch.store w
            /\ (forall e, In e (Dispatch.trace w1) ->
                  match e with
                  | Dispatch.EvAddMessage _ | Dispatch.EvSave _ =>
                      In e (Dispatch.trace w)
                  | _ => True
                  end)).
  { intros c' w1 E.
    destruct (ensure_id_cases call w2) as [[id [_ [_ E']]]|[_ E']];
      rewrite E' in E; inversion E; subst c' w1; clear E;
      (split; [reflexivity|split; [reflexivity|split; [reflexivity|]]]);
      intros e He'; unfold w2 in He'; simpl in He';
      rewrite !in_app_iff in He'; simpl in He';
      destruct e; try exact I;
      intuition discriminate. }
  destruct (Dispatch.ensure_id uuid4 call w2) as [c' w1] eqn:E.
  destruct (Hname c' w1 eq_refl) as [Hn [Ha [Hs Htr]]].
  rewrite Hn, Ha in R. split.
  - intros err Herr. rewrite Herr in R. eexists. split; [exact R|].
    split; [exact Hs|].
    intros e He'. simpl in He'. rewrite in_app_iff in He'. simpl in He'.
    destruct He' as [He'|[<-|[]]]; [now apply Htr|exact I].
  - intros text Htext. rewrite Htext in R. eexists. eexists. eexists.
    split; [exact R|].
    unfold Dispatch.addMessage at 1. unfold Dispatch.persist at 1.
    cbn [Dispatch.store]. repeat split.
Qed.

End DispatchFacts.

Lemma uuid4_not_empty (n : nat) : Examples.uuid4 n <> "".
Proof. unfold Examples.uuid4. simpl. discriminate. Qed.

(** The weather scenario: the empty id is replaced, the call and its
    answer are persisted under the new id, and the next reply is the
    final message. *)
Example weather_scenario :
  fst Examples.weather_run = Ok Examples.weather_reply
  /\ List.map (fun m => (role m, content m, toolCallId m,
                         List.map tc_id (toolCalls m)))
       (Dispatch.store (snd Examples.weather_run))
     = [ (Role.user, "What's the weather in NYC?", None, []);
         (Role.assistant, "", None, [Some "uuid-"]);
         (Role.tool, "sunny", Some "uuid-", []);
         (Role.assistant, "It is sunny in NYC.", None, []) ].
Proof. split; reflexivity. Qed.

(** C1 as stated fails on the order of two effects: the collaborator is
    invoked before the assistant message of the call is persisted, not
    after. *)
Lemma weather_invoked_before_persisted :
  Dispatch.index_of Dispatch.is_invoke
    (Dispatch.trace (snd Examples.weather_run)) = Some 3%nat
  /\ Dispatch.index_of (Dispatch.persists_role Role.assistant)
       (Dispatch.trace (snd Examples.weather_run)) = Some 4%nat
  /\ ~ Dispatch.precedes (Dispatch.persists_role Role.assistant)
         Dispatch.is_invoke (Dispatch.trace (snd Examples.weather_run)).
Proof.
  split; [reflexivity|split; [reflexivity|]].
  intros [i [j [Hi [Hj Hlt]]]].
  vm_compute in Hi. vm_compute in Hj.
  inversion Hi; inversion Hj; subst. lia.
Qed.

Lemma dispatch_first_tool_call_witness :
  fst (Dispatch.dispatch Examples.uuid4 Examples.tools_of Examples.engines
         Examples.tool_works 3 Examples.weather_session Examples.claude
         Examples.world_0)
  = Ok Examples.weather_reply.
Proof.
  destruct (proj2 (dispatch_first_tool_call Examples.uuid4 Examples.tools_of
                     Examples.engines Examples.tool_works 2
                     Examples.weather_session Examples.claude Examples.world_0
                     _ _ _ uuid4_not_empty eq_refl eq_refl eq_refl)
                  Examples.weather_call [] "sunny" eq_refl eq_refl)
    as [id [fresh [_ [_ [Hfresh Hrun]]]]].
  destruct (Hfresh eq_refl) as [-> ->].
  cbv zeta in Hrun. destruct Hrun as [Hrun _].
  rewrite Hrun. reflexivity.
Defined.

(** C2 as stated fails: a collaborator that raises makes [dispatch]
    raise, and no tool message carries the error. *)
Lemma tool_crash_not_captured :
  fst Examples.crashing_run = Raise "tool crashed"
  /\ Dispatch.store (snd Examples.crashing_run) = [Examples.question]
  /\ existsb Examples.is_tool (Dispatch.store (snd Examples.crashing_run))
     = false.
Proof. repeat split. Qed.

Lemma tool_failure_reaches_caller_witness :
  exists w',
    Dispatch.dispatch Examples.uuid4 Examples.tools_of Examples.engines
      Examples.tool_crashes 3 Examples.weather_session Examples.claude
      Examples.world_0
    = (Raise "tool crashed", w')
    /\ Dispatch.store w' = [Examples.question].
Proof.
  destruct (proj1 (tool_failure_reaches_caller Examples.uuid4 Examples.tools_of
                     Examples.engines Examples.tool_crashes 2
                     Examples.weather_session Examples.claude Examples.world_0
                     _ _ _ Examples.weather_call [] eq_refl eq_refl eq_refl
                     eq_refl)
                  "tool crashed" eq_refl)
    as [w' [Hrun [Hstore _]]].
  exists w'. split; [exact Hrun|exact Hstore].
Defined.

(** ** Invariants of the dispatch loop *)

Lemma call_rounds_app (sid : nat) (l1 l2 : list Message) :
  Conversation.call_rounds sid l1 -> Conversation.call_rounds sid l2 ->
  Conversation.call_rounds sid (l1 ++ l2).
Proof.
  induction 1 as [|a t rest Hp Hr IH]; intros H2; [exact H2|].
  simpl. constructor; auto.
Qed.

Lemma generated_app (t1 t2 : list Dispatch.Event) :
  Conversation.generated (t1 ++ t2)
  = Conversation.generated t1 ++ Conversation.generated t2.
Proof.
  induction t1 as [|e t1 IH]; [reflexivity|].
  destruct e; simpl; rewrite IH; reflexivity.
Qed.

Lemma invoked_app (t1 t2 : list Dispatch.Event) :
  Conversation.invoked (t1 ++ t2)
  = Conversation.invoked t1 ++ Conversation.invoked t2.
Proof.
  induction t1 as [|e t1 IH]; [reflexivity|].
  destruct e; simpl; rewrite IH; reflexivity.
Qed.

Section DispatchInvariants.

Variable uuid4 : nat -> string.
Variable session_tools : nat -> Result (list Tool).
Variable Engine_client : option nat -> option Dispatch.ChatFn.
Variable call_mcp_tool :
  nat -> string -> list (string * JS.value) -> Result string.

Local Abbreviation run :=
  (Dispatch.dispatch uuid4 session_tools Engine_client call_mcp_tool).
Local Abbreviation round :=
  (Dispatch.tool_round uuid4 call_mcp_tool).

(** What one tool round leaves behind, whether the collaborator
    answers or raises. *)
Lemma tool_round_cases (sid : nat) (call : ToolCall) (w : Dispatch.World) :
  exists k,
    (k <= 1)%nat
    /\ Dispatch.uuids (snd (round sid call w)) = (Dispatch.uuids w + k)%nat
    /\ Conversation.generated (Dispatch.trace (snd (round sid call w)))
       = Conversation.generated (Dispatch.trace w)
         ++ List.map uuid4 (List.seq (Dispatch.uuids w) k)
    /\ Conversation.invoked (Dispatch.trace (snd (round sid call w)))
       = Conversation.invoked (Dispatch.trace w)
         ++ [(tc_name call, tc_arguments call)]
    /\ match fst (round sid call w) with
       | Raise _ =>
           Dispatch.store (snd (round sid call w)) = Dispatch.store w
       | Ok _ =>
           exists asked answered,
             Dispatch.store (snd (round sid call w))
             = Dispatch.store w ++ [asked; answered]
             /\ ((forall n, uuid4 n <> "") ->
                 Conversation.call_round sid asked answered)
       end.
Proof.
  unfold Dispatch.tool_round.
  destruct (ensure_id_cases uuid4 call w) as [[id [Hid [Hne E]]]|[Hf E]];
    rewrite E.
  - exists 0%nat. split; [lia|].
    destruct (call_mcp_tool sid (tc_name call) (tc_arguments call)) as [text|err];
      simpl; rewrite ?Nat.add_0_r, ?app_nil_r, ?generated_app, ?invoked_app;
      simpl; rewrite ?app_nil_r;
      (split; [reflexivity|split; [reflexivity|split; [reflexivity|]]]).
    + eexists. eexists. split; [rewrite <- app_assoc; reflexivity|].
      intros _. unfold Conversation.call_round. simpl. repeat split.
      exists call, id. repeat split; assumption.
    + reflexivity.
  - exists 1%nat. split; [lia|].
    cbn [Dispatch.with_id tc_name tc_arguments tc_id].
    destruct (call_mcp_tool sid (tc_name call) (tc_arguments call)) as [text|err];
      simpl; rewrite ?Nat.add_1_r, ?generated_app, ?invoked_app;
      simpl; rewrite ?generated_app, ?invoked_app; simpl;
      rewrite ?app_nil_r;
      (split; [reflexivity|split; [reflexivity|split; [reflexivity|]]]).
    + eexists. eexists. split; [rewrite <- app_assoc; reflexivity|].
      intros Hu. unfold Conversation.call_round. simpl. repeat split.
      eexists. eexists. repeat split. apply Hu.
    + reflexivity.
Qed.

(** Everything a run leaves behind, for any fuel and any start. *)
Lemma dispatch_run_shape (fuel : nat) (s : Session) (mdl : Model)
    (w : Dispatch.World) :
  exists added k calls,
    ((forall n, uuid4 n <> "") ->
     Conversation.call_rounds (session_id s) added)
    /\ (k <= length calls)%nat
    /\ (length calls <= fuel)%nat
    /\ Dispatch.uuids (snd (run fuel s mdl w)) = (Dispatch.uuids w + k)%nat
    /\ Conversation.generated (Dispatch.trace (snd (run fuel s mdl w)))
       = Conversation.generated (Dispatch.trace w)
         ++ List.map uuid4 (List.seq (Dispatch.uuids w) k)
    /\ Conversation.invoked (Dispatch.trace (snd (run fuel s mdl w)))
       = Conversation.invoked (Dispatch.trace w) ++ calls
    /\ match fst (run fuel s mdl w) with
       | Ok final =>
           Dispatch.store (snd (run fuel s mdl w))
           = Dispatch.store w ++ added ++ [final]
           /\ toolCalls final = []
           /\ sessionId final = Some (session_id s)
           /\ length added = (2 * length calls)%nat
       | Raise _ =>
           Dispatch.store (snd (run fuel s mdl w)) = Dispatch.store w ++ added
           /\ (length added = (2 * length calls)%nat
               \/ (length added + 2 = 2 * length calls)%nat)
       end.
Proof.
  revert w. induction fuel as [|fuel IH]; intros w.
  - exists [], 0%nat, []. simpl. rewrite !app_nil_r, Nat.add_0_r.
    repeat split; auto. constructor.
  - cbn [Dispatch.dispatch].
    assert (Stop : forall (r : Result Message) tr,
              Conversation.generated tr = [] -> Conversation.invoked tr = [] ->
              (forall m, r = Ok m -> False) ->
              let w1 := {| Dispatch.store := Dispatch.store w;
                           Dispatch.uuids := Dispatch.uuids w;
                           Dispatch.trace := Dispatch.trace w ++ tr |} in
              exists added k calls,
                ((forall n, uuid4 n <> "") ->
                 Conversation.call_rounds (session_id s) added)
                /\ (k <= length calls)%nat
                /\ (length calls <= S fuel)%nat
                /\ Dispatch.uuids w1 = (Dispatch.uuids w + k)%nat
                /\ Conversation.generated (Dispatch.trace w1)
                   = Conversation.generated (Dispatch.trace w)
                     ++ List.map uuid4 (List.seq (Dispatch.uuids w) k)
                /\ Conversation.invoked (Dispatch.trace w1)
                   = Conversation.invoked (Dispatch.trace w) ++ calls
                /\ match r with
                   | Ok final =>
                       Dispatch.store w1 = Dispatch.store w ++ added ++ [final]
                       /\ toolCalls final = []
                       /\ sessionId final = Some (session_id s)
                       /\ length added = (2 * length calls)%nat
                   | Raise _ =>
                       Dispatch.store w1 = Dispatch.store w ++ added
                       /\ (length added = (2 * length calls)%nat
                           \/ (length added + 2 = 2 * length calls)%nat)
                   end).
    { intros r tr Hg Hi Hr w1. exists [], 0%nat, []. subst w1. simpl.
      rewrite generated_app, invoked_app, Hg, Hi, !app_nil_r, Nat.add_0_r.
      repeat split; try lia; try constructor.
      destruct r as [m|e]; [destruct (Hr m eq_refl)|]. auto. }
    destruct (session_tools (session_id s)) as [tools|err];
      [|apply (Stop (Raise err) [Dispatch.EvTools (session_id s)]);
        try reflexivity; discriminate].
    destruct (Engine_client (model_engineId mdl)) as [chat|];
      [|apply (Stop (Raise "TypeError: engine.client is undefined")
                    [Dispatch.EvTools (session_id s)]);
        try reflexivity; discriminate].
    set (history := Dispatch.session_messages (session_id s) _).
    destruct (chat mdl history tools (Dispatch.options_of s)) as [message|err].
    2: { unfold Dispatch.log. cbn [Dispatch.store Dispatch.uuids Dispatch.trace].
         rewrite <- app_assoc.
         apply (Stop (Raise err)
                  ([Dispatch.EvTools (session_id s)] ++ [Dispatch.EvChat history]));
           try reflexivity; discriminate. }
    destruct (toolCalls message) as [|call rest] eqn:Hcalls.
    + exists [], 0%nat, [].
      unfold Dispatch.save, Dispatch.persist, Dispatch.log. simpl.
      rewrite !generated_app, !invoked_app. simpl.
      rewrite !app_nil_r, Nat.add_0_r.
      repeat split; try lia; try constructor. exact Hcalls.
    + set (w2 := Dispatch.log (Dispatch.EvChat history)
                   (Dispatch.log (Dispatch.EvTools (session_id s)) w)).
      destruct (tool_round_cases (session_id s) call w2)
        as [k1 [Hk1 [Hu1 [Hg1 [Hi1 Hst1]]]]].
      assert (G2 : Conversation.generated (Dispatch.trace w2)
                   = Conversation.generated (Dispatch.trace w)).
      { unfold w2, Dispatch.log. simpl. rewrite !generated_app. simpl.
        now rewrite !app_nil_r. }
      assert (I2 : Conversation.invoked (Dispatch.trace w2)
                   = Conversation.invoked (Dispatch.trace w)).
      { unfold w2, Dispatch.log. simpl. rewrite !invoked_app. simpl.
        now rewrite !app_nil_r. }
      rewrite G2 in Hg1. rewrite I2 in Hi1.
      change (Dispatch.uuids w2) with (Dispatch.uuids w) in Hu1, Hg1.
      change (Dispatch.store w2) with (Dispatch.store w) in Hst1.
      destruct (round (session_id s) call w2) as [[u|err] w3];
        cbn [fst snd] in *.
      * destruct Hst1 as [asked [answered [Hs3 Hp]]].
        destruct (IH w3) as [added [k [calls [Hr [Hk [Hc [Hu' [Hg' [Hi' Hm]]]]]]]]].
        exists (asked :: answered :: added), (k1 + k)%nat,
               ((tc_name call, tc_arguments call) :: calls).
        split; [intros Hu; constructor; auto|].
        split; [simpl; lia|]. split; [simpl; lia|].
        split; [rewrite Hu', Hu1; lia|].
        split.
        { rewrite Hg', Hg1, Hu1, <- app_assoc, <- List.map_app, <- seq_app.
          reflexivity. }
        split; [rewrite Hi', Hi1, <- app_assoc; reflexivity|].
        destruct (fst (run fuel s mdl w3)) as [final|e].
        -- destruct Hm as [Hst [Hnil [Hsid Hlen]]].
           rewrite Hst, Hs3, <- !app_assoc. simpl.
           repeat split; auto. lia.
        -- destruct Hm as [Hst Hlen].
           rewrite Hst, Hs3, <- !app_assoc. simpl.
           split; [reflexivity|]. lia.
      * exists [], k1, [(tc_name call, tc_arguments call)].
        split; [intros _; constructor|].
        split; [simpl; lia|]. split; [simpl; lia|].
        split; [exact Hu1|]. split; [exact Hg1|]. split; [exact Hi1|].
        rewrite app_nil_r. split; [exact Hst1|]. right. reflexivity.
Qed.


(** X1. Whatever the fuel and the start, and whether the run ends with
    a message or with a failure, the messages it has persisted are
    appended to the store and form whole rounds: each assistant message
    with one call of non-empty id is followed at once by the tool
    message answering that id.  On success the rounds are followed by
    the returned message, which carries no tool call and belongs to the
    session. *)
Theorem dispatch_persists_whole_rounds (fuel : nat) (s : Session)
    (mdl : Model) (w : Dispatch.World) :
  (forall n, uuid4 n <> "") ->
  exists added,
    Conversation.call_rounds (session_id s) added
    /\ match fst (run fuel s mdl w) with
       | Ok final =>
           Dispatch.store (snd (run fuel s mdl w))
           = Dispatch.store w ++ added ++ [final]
           /\ toolCalls final = []
           /\ sessionId final = Some (session_id s)
       | Raise _ =>
           Dispatch.store (snd (run fuel s mdl w)) = Dispatch.store w ++ added
       end.
Proof.
  intros Hu.
  destruct (dispatch_run_shape fuel s mdl w)
    as [added [k [calls [Hr [_ [_ [_ [_ [_ Hm]]]]]]]]].
  exists added. split; [exact (Hr Hu)|].
  destruct (fst (run fuel s mdl w)); tauto.
Qed.


(** X3. A run invokes the tool collaborator once per round and never
    more often than it has fuel: when it returns a message, the
    persisted rounds are exactly its invocations, two messages each;
    when it fails, at most the last invocation, the one that raised,
    has no persisted round. *)
Theorem dispatch_one_invocation_per_round (fuel : nat) (s : Session)
    (mdl : Model) (w : Dispatch.World) :
  exists calls added,
    Conversation.invoked (Dispatch.trace (snd (run fuel s mdl w)))
    = Conversation.invoked (Dispatch.trace w) ++ calls
    /\ (length calls <= fuel)%nat
    /\ match fst (run fuel s mdl w) with
       | Ok final =>
           Dispatch.store (snd (run fuel s mdl w))
           = Dispatch.store w ++ added ++ [final]
           /\ length added = (2 * length calls)%nat
       | Raise _ =>
           Dispatch.store (snd (run fuel s mdl w)) = Dispatch.store w ++ added
           /\ (length added = (2 * length calls)%nat
               \/ (length added + 2 = 2 * length calls)%nat)
       end.
Proof.
  destruct (dispatch_run_shape fuel s mdl w)
    as [added [k [calls [_ [_ [Hc [_ [_ [Hi Hm]]]]]]]]].
  exists calls, added. split; [exact Hi|]. split; [exact Hc|].
  destruct (fst (run fuel s mdl w)); tauto.
Qed.

(** X4. The loop has no round limit of its own: as long as the model
    keeps asking for a tool and the collaborator keeps answering, a run
    given [n] rounds has made [n] invocations, persisted [2 n] messages
    and not yet returned. *)
Theorem dispatch_has_no_round_limit (s : Session) (mdl : Model)
    (tools : list Tool) (chat : Dispatch.ChatFn) :
  session_tools (session_id s) = Ok tools ->
  Engine_client (model_engineId mdl) = Some chat ->
  (forall history,
     exists message,
       chat mdl history tools (Dispatch.options_of s) = Ok message
       /\ toolCalls message <> []) ->
  (forall name args,
     exists text, call_mcp_tool (session_id s) name args = Ok text) ->
  forall fuel w,
    fst (run fuel s mdl w) = Raise "dispatch: out of fuel"
    /\ length (Dispatch.store (snd (run fuel s mdl w)))
       = (length (Dispatch.store w) + 2 * fuel)%nat
    /\ length (Conversation.invoked (Dispatch.trace (snd (run fuel s mdl w))))
       = (length (Conversation.invoked (Dispatch.trace w)) + fuel)%nat.
Proof.
  intros Ht He Hchat Htool fuel.
  induction fuel as [|fuel IH]; intros w.
  - simpl. repeat split; lia.
  - cbn [Dispatch.dispatch]. rewrite Ht, He.
    set (history := Dispatch.session_messages (session_id s) _).
    destruct (Hchat history) as [message [Hc Hne]]. rewrite Hc.
    destruct (toolCalls message) as [|call rest]; [contradiction|].
    set (w2 := Dispatch.log (Dispatch.EvChat history)
                 (Dispatch.log (Dispatch.EvTools (session_id s)) w)).
    destruct (tool_round_cases (session_id s) call w2)
      as [k1 [_ [_ [_ [Hi1 Hst1]]]]].
    assert (Hok : exists u, fst (round (session_id s) call w2) = Ok u).
    { unfold Dispatch.tool_round.
      destruct (Dispatch.ensure_id uuid4 call w2) as [c' w1].
      destruct (Htool (tc_name c') (tc_arguments c')) as [text Hx].
      rewrite Hx. simpl. eauto. }
    destruct Hok as [u Hok].
    destruct (round (session_id s) call w2) as [r w3]. cbn [fst snd] in *.
    subst r. destruct Hst1 as [asked [answered [Hs3 _]]].
    destruct (IH w3) as [Hf [Hl Hn]].
    split; [exact Hf|]. rewrite Hl, Hn, Hs3, Hi1.
    unfold w2, Dispatch.log. simpl.
    rewrite !invoked_app, !length_app. simpl. split; lia.
Qed.

End DispatchInvariants.




Lemma dispatch_persists_whole_rounds_witness :
  exists added,
    Conversation.call_rounds 1 added
    /\ Dispatch.store (snd Examples.weather_run)
       = [Examples.question] ++ added ++ [Examples.weather_reply].
Proof.
  destruct (dispatch_persists_whole_rounds Examples.uuid4 Examples.tools_of
              Examples.engines Examples.tool_works 3 Examples.weather_session
              Examples.claude Examples.world_0 uuid4_not_empty)
    as [added [Hr Hm]].
  exists added. split; [exact Hr|]. exact (proj1 Hm).
Defined.


Lemma dispatch_has_no_round_limit_witness :
  fst (Dispatch.dispatch Examples.uuid4 Examples.tools_of
         Scenarios.greedy_engines Examples.tool_works 7
         Examples.weather_session Examples.claude Examples.world_0)
  = Raise "dispatch: out of fuel".
Proof.
  refine (proj1 (dispatch_has_no_round_limit Examples.uuid4 Examples.tools_of
                   Scenarios.greedy_engines Examples.tool_works
                   Examples.weather_session Examples.claude
                   [Examples.get_weather] Scenarios.greedy_chat
                   eq_refl eq_refl _ _ 7%nat Examples.world_0)).
  - intros history. eexists. split; [reflexivity|discriminate].
  - intros name args. exists "sunny". reflexivity.
Defined.

(** ** More of the Anthropic adapter *)

Lemma tool_use_units_kept (calls : list ToolCall) :
  List.filter AnthropicReply.is_tool_use_unit
    (List.map Anthropic.tool_use_of calls)
  = List.map Anthropic.tool_use_of calls
  /\ List.filter AnthropicReply.is_thinking_unit
       (List.map Anthropic.tool_use_of calls) = []
  /\ (forall t, ~ In (Anthropic.text t) (List.map Anthropic.tool_use_of calls))
  /\ (forall t, ~ In (Anthropic.thinking t)
                   (List.map Anthropic.tool_use_of calls)).
Proof.
  induction calls as [|c l [IH1 [IH2 [IH3 IH4]]]]; simpl.
  - repeat split; auto.
  - rewrite IH1, IH2. repeat split; auto.
    + intros t [H|H]; [discriminate|exact (IH3 t H)].
    + intros t [H|H]; [discriminate|exact (IH4 t H)].
Qed.

Lemma tool_use_units_tail (calls : list ToolCall) :
  List.filter AnthropicReply.is_thinking_unit
    (List.tl (List.map Anthropic.tool_use_of calls)) = [].
Proof.
  destruct calls as [|c l]; [reflexivity|].
  simpl. apply (tool_use_units_kept l).
Qed.

(** What [assistant] pushes, spelled out. *)
Lemma assistant_units (m : Message) :
  Anthropic.mp_content (Anthropic.assistant m)
  = match
      (if JS.truthy_opt JS.truthy_string (thought m)
       then [Anthropic.thinking (JS.nullish (thought m) "")] else [])
      ++ (if JS.truthy_string (content m)
          then [Anthropic.text (content m)] else [])
      ++ List.map Anthropic.tool_use_of (toolCalls m)
    with
    | [] => [Anthropic.text ""]
    | units => units
    end.
Proof.
  unfold Anthropic.assistant. cbn [Anthropic.mp_content].
  destruct (JS.truthy_opt JS.truthy_string (thought m));
    destruct (JS.truthy_string (content m));
    destruct (toolCalls m) as [|c l]; reflexivity.
Qed.

Lemma tool_use_of_unit (call : ToolCall) :
  Anthropic.tool_use_of call
  = Anthropic.tool_use (match tc_id call with Some id => id | None => "" end)
      (tc_name call) (tc_arguments call).
Proof.
  unfold Anthropic.tool_use_of, JS.or_string.
  destruct (tc_id call) as [id|]; [|reflexivity].
  destruct (JS.truthy_string id) eqn:T; [reflexivity|].
  apply truthy_string_false in T. now subst.
Qed.

(** X5. The turn of an assistant message is never empty; its tool-use
    units are the message's calls, each once and in order, each with
    the call's name, the call's arguments as input and the call's id,
    or the empty string when the call has no id; a thinking unit can
    only be the first unit and carries the non-empty thought; and a
    text unit carries the message's content. *)
Theorem assistant_turn_units (m : Message) :
  Anthropic.mp_content (Anthropic.assistant m) <> []
  /\ List.filter AnthropicReply.is_tool_use_unit
       (Anthropic.mp_content (Anthropic.assistant m))
     = List.map
         (fun call =>
            Anthropic.tool_use
              (match tc_id call with Some id => id | None => "" end)
              (tc_name call) (tc_arguments call))
         (toolCalls m)
  /\ List.filter AnthropicReply.is_thinking_unit
       (List.tl (Anthropic.mp_content (Anthropic.assistant m))) = []
  /\ (forall t, In (Anthropic.text t)
                   (Anthropic.mp_content (Anthropic.assistant m)) ->
                 t = content m)
  /\ (forall t, In (Anthropic.thinking t)
                   (Anthropic.mp_content (Anthropic.assistant m)) ->
                 thought m = Some t /\ t <> "").
Proof.
  rewrite <- (List.map_ext _ _ tool_use_of_unit).
  rewrite assistant_units.
  destruct (tool_use_units_kept (toolCalls m)) as [K1 [K2 [K3 K4]]].
  destruct (thought m) as [t|] eqn:Et; cbn [JS.truthy_opt JS.nullish];
    [destruct (JS.truthy_string t) eqn:Tt|];
    destruct (JS.truthy_string (content m)) eqn:Tc;
    cbn [app];
    try (destruct (List.map Anthropic.tool_use_of (toolCalls m)) eqn:El;
         [|rewrite <- El in *]);
    cbn [List.filter List.tl AnthropicReply.is_tool_use_unit
         AnthropicReply.is_thinking_unit];
    rewrite ?K1, ?K2, ?tool_use_units_tail;
    (split; [try discriminate; congruence|]);
    (split; [try reflexivity; congruence|]);
    (split; [try reflexivity|]);
    try (split; intros u Hu; simpl in Hu;
         repeat match goal with
         | H : _ \/ _ |- _ => destruct H
         | H : False |- _ => destruct H
         | H : Anthropic.text _ = Anthropic.text _ |- _ =>
             inversion H; subst; clear H
         | H : Anthropic.thinking _ = Anthropic.thinking _ |- _ =>
             inversion H; subst; clear H
         | H : In (Anthropic.text _) _ |- _ => destruct (K3 _ H)
         | H : In (Anthropic.thinking _) _ |- _ => destruct (K4 _ H)
         end;
         try discriminate; try reflexivity;
         try (apply truthy_string_false in Tc; congruence);
         try (split; [reflexivity|intros ->; discriminate])).
Qed.

(** X6. Only a system message is dropped by the translation, and only
    an assistant message becomes an assistant turn: a user, tool,
    function, developer or model message becomes a user turn. *)
Theorem toAnthropic_turn_roles (find : option nat -> Session) (m : Message) :
  (Anthropic.toAnthropic find m = None <-> role m = Role.system)
  /\ (forall turn,
        Anthropic.toAnthropic find m = Some turn ->
        (Anthropic.mp_role turn = Anthropic.role_assistant
         <-> role m = Role.assistant)
        /\ (Anthropic.mp_role turn = Anthropic.role_user
            <-> role m <> Role.assistant)
        /\ Anthropic.mp_content turn <> []).
Proof.
  split; [apply toAnthropic_none|].
  intros turn. unfold Anthropic.toAnthropic.
  destruct (role m) eqn:E; intros H; inversion H; subst turn; clear H.
  2: { split; [split; reflexivity|].
       split; [split; [discriminate|congruence]|].
       apply (assistant_turn_units m). }
  all: cbn [Anthropic.user Anthropic.toolResponse Anthropic.mp_role
            Anthropic.mp_content];
    repeat split; intros; try discriminate; congruence.
Qed.

(** X7. With a non-empty credential the constructor builds a client
    that keeps the credential, lists two default models, so that the
    probe of [connected] always names a model, and is the MiniMax
    variant exactly when the configured URL contains
    [api.minimax.io/anthropic]; an empty URL leaves the base URL
    unset. *)
Theorem constructor_builds_client (options : ClientProps) :
  apiKey options <> "" ->
  exists self,
    Anthropic.constructor options = Ok self
    /\ Anthropic.sdk_apiKey self = apiKey options
    /\ Anthropic.client_engineId self = props_engineId options
    /\ length (Anthropic.defaultModels self) = 2%nat
    /\ Anthropic.isMiniMax self
       = JS.includes "api.minimax.io/anthropic" (url options)
    /\ (url options = "" -> Anthropic.baseUrl self = None)
    /\ (url options <> "" -> Anthropic.baseUrl self = Some (url options))
    /\ exists name, In name (Anthropic.defaultModels self)
                    /\ Anthropic.p_model (Anthropic.ping self) = Some name.
Proof.
  intros Hkey. unfold Anthropic.constructor.
  destruct (JS.truthy_string (apiKey options)) eqn:K;
    [|apply truthy_string_false in K; contradiction].
  cbn [negb]. eexists. split; [reflexivity|].
  cbn [Anthropic.sdk_apiKey Anthropic.client_engineId Anthropic.isMiniMax
       Anthropic.defaultModels Anthropic.baseUrl].
  assert (M : JS.includes "api.minimax.io/anthropic"
                (JS.or_string
                   (if JS.truthy_string (url options)
                    then Some (url options) else None) "")
              = JS.includes "api.minimax.io/anthropic" (url options)).
  { destruct (JS.truthy_string (url options)) eqn:U.
    - cbn [JS.or_string]. now rewrite U.
    - apply truthy_string_false in U. rewrite U. reflexivity. }
  rewrite M.
  split; [reflexivity|]. split; [reflexivity|].
  split; [destruct (JS.includes _ (url options)); reflexivity|].
  split; [reflexivity|].
  split; [intros ->; reflexivity|].
  split.
  { intros Hu. destruct (JS.truthy_string (url options)) eqn:U;
      [reflexivity|]. apply truthy_string_false in U. contradiction. }
  unfold Anthropic.ping. cbn [Anthropic.p_model Anthropic.defaultModels].
  destruct (JS.includes _ (url options)); eexists;
    (split; [left; reflexivity|reflexivity]).
Qed.

Lemma constructor_builds_client_witness :
  exists self,
    Anthropic.constructor (Examples.props "sk-test") = Ok self
    /\ Anthropic.isMiniMax self = false
    /\ Anthropic.p_model (Anthropic.ping self)
       = Some "claude-3-5-sonnet-latest".
Proof.
  destruct (constructor_builds_client (Examples.props "sk-test"))
    as [self [Hc [_ [_ [_ [Hm _]]]]]]; [discriminate|].
  exists self. split; [exact Hc|].
  split; [exact Hm|].
  inversion Hc. reflexivity.
Defined.

(** X8. The models the adapter lists are what [info] returns for each
    default model name, in order: the id is the name under the
    [anthropic:] prefix, tools are supported, the engine is the
    client's.  Their metadata declares no output limit, so a chat with
    a listed model sends the endpoint's default [max_tokens]. *)
Theorem listed_models_are_info (self : Anthropic.AnthropicClient) :
  AnthropicReply.models self
  = List.map (AnthropicReply.info self) (Anthropic.defaultModels self)
  /\ List.map model_name (AnthropicReply.models self)
     = Anthropic.defaultModels self
  /\ (forall m, In m (AnthropicReply.models self) ->
        model_id m = Some ("anthropic:" ++ model_name m)%string
        /\ supportsTools m = true
        /\ model_engineId m = Some (Anthropic.client_engineId self)
        /\ Anthropic.declared_limit m = None
        /\ Anthropic.max_tokens_for self m
           = Anthropic.num (if Anthropic.isMiniMax self then 4096 else 1024)).
Proof.
  split; [reflexivity|]. split.
  - unfold AnthropicReply.models. rewrite List.map_map. simpl.
    apply List.map_id.
  - intros m Hm. unfold AnthropicReply.models in Hm.
    apply in_map_iff in Hm. destruct Hm as [name [<- _]].
    unfold Anthropic.max_tokens_for, Anthropic.default_max_tokens.
    cbn. repeat split. now destruct (Anthropic.isMiniMax self).
Qed.

(** ** Replies of the Anthropic provider *)

Lemma tool_calls_of_response (response : list AnthropicReply.ContentBlock) :
  List.map (fun c => (tc_id c, tc_name c, tc_arguments c))
    (List.map AnthropicReply.call_of
       (List.filter AnthropicReply.is_tool_use response))
  = List.map (fun u => (Some (fst (fst u)), snd (fst u), snd u))
      (AnthropicReply.tool_uses response).
Proof.
  induction response as [|b r IH]; [reflexivity|].
  destruct b; simpl; rewrite ?IH; reflexivity.
Qed.

(** X9. The message built from a response is an assistant message of
    the model asked; its tool calls are the tool-use blocks of the
    response, one call per block and in their order, each with the
    block's own id, name and input (no id is invented, no block is
    dropped, blocks of other types add no call); and its thought is
    absent rather than empty. *)
Theorem toMessage_ingests (trim : string -> string)
    (response : list AnthropicReply.ContentBlock) (mdl : Model) :
  role (AnthropicReply.toMessage trim response mdl) = Role.assistant
  /\ msg_model (AnthropicReply.toMessage trim response mdl)
     = Some (model_name mdl)
  /\ toolCallId (AnthropicReply.toMessage trim response mdl) = None
  /\ thought (AnthropicReply.toMessage trim response mdl) <> Some ""
  /\ List.map (fun c => (tc_id c, tc_name c, tc_arguments c))
       (toolCalls (AnthropicReply.toMessage trim response mdl))
     = List.map (fun u => (Some (fst (fst u)), snd (fst u), snd u))
         (AnthropicReply.tool_uses response)
  /\ length (toolCalls (AnthropicReply.toMessage trim response mdl))
     = length (List.filter AnthropicReply.is_tool_use response).
Proof.
  unfold AnthropicReply.toMessage. cbn [role msg_model toolCallId thought toolCalls].
  split; [reflexivity|]. split; [reflexivity|]. split; [reflexivity|].
  split.
  - destruct (JS.truthy_string _) eqn:T; [|discriminate].
    intros H. inversion H as [H']. rewrite H' in T. discriminate.
  - split; [apply tool_calls_of_response|apply length_map].
Qed.

Lemma tool_uses_read_back (calls : list ToolCall) :
  let blocks :=
    List.map AnthropicReply.as_block (List.map Anthropic.tool_use_of calls) in
  List.filter AnthropicReply.is_text blocks = []
  /\ List.filter AnthropicReply.is_thinking blocks = []
  /\ List.map AnthropicReply.call_of
       (List.filter AnthropicReply.is_tool_use blocks)
     = List.map (fun c => Dispatch.with_id c (JS.or_string (tc_id c) "")) calls.
Proof.
  induction calls as [|c l [IH1 [IH2 IH3]]]; simpl; [auto|].
  simpl in IH1, IH2, IH3. rewrite IH1, IH2, IH3. auto.
Qed.

Lemma with_own_id (c : ToolCall) :
  JS.truthy_opt JS.truthy_string (tc_id c) = true ->
  Dispatch.with_id c (JS.or_string (tc_id c) "") = c.
Proof.
  destruct c as [[id|] name args]; simpl; [|discriminate].
  intros H. rewrite H. reflexivity.
Qed.

(** X10. What the adapter sends for an assistant message, read back as
    a response, is ingested as the same message up to trimming: the
    content is the trimmed content, the thought the trimmed thought
    (absent when empty), and the tool calls are the message's calls in
    order with the id [call.id || '']; when every call has a non-empty
    id, the calls come back unchanged. *)
Theorem assistant_turn_read_back (trim : string -> string) (mdl : Model)
    (m : Message) :
  let reply :=
    List.map AnthropicReply.as_block
      (Anthropic.mp_content (Anthropic.assistant m)) in
  content (AnthropicReply.toMessage trim reply mdl) = trim (content m)
  /\ thought (AnthropicReply.toMessage trim reply mdl)
     = (if JS.truthy_string (trim (JS.or_string (thought m) ""))
        then Some (trim (JS.or_string (thought m) "")) else None)
  /\ toolCalls (AnthropicReply.toMessage trim reply mdl)
     = List.map (fun c => Dispatch.with_id c (JS.or_string (tc_id c) ""))
         (toolCalls m)
  /\ (Forall (fun c => JS.truthy_opt JS.truthy_string (tc_id c) = true)
             (toolCalls m) ->
      toolCalls (AnthropicReply.toMessage trim reply mdl) = toolCalls m).
Proof.
  cbv zeta.
  assert (Core :
    content (AnthropicReply.toMessage trim
               (List.map AnthropicReply.as_block
                  (Anthropic.mp_content (Anthropic.assistant m))) mdl)
    = trim (content m)
    /\ thought (AnthropicReply.toMessage trim
                  (List.map AnthropicReply.as_block
                     (Anthropic.mp_content (Anthropic.assistant m))) mdl)
       = (if JS.truthy_string (trim (JS.or_string (thought m) ""))
          then Some (trim (JS.or_string (thought m) "")) else None)
    /\ toolCalls (AnthropicReply.toMessage trim
                    (List.map AnthropicReply.as_block
                       (Anthropic.mp_content (Anthropic.assistant m))) mdl)
       = List.map (fun c => Dispatch.with_id c (JS.or_string (tc_id c) ""))
           (toolCalls m)).
  { rewrite assistant_units.
    destruct (tool_uses_read_back (toolCalls m)) as [R1 [R2 R3]].
    cbv zeta in R1, R2, R3.
    unfold AnthropicReply.toMessage. cbn [content thought toolCalls].
    assert (HT : JS.truthy_opt JS.truthy_string (thought m) = true
                 /\ JS.or_string (thought m) "" = JS.nullish (thought m) ""
                 \/ JS.truthy_opt JS.truthy_string (thought m) = false
                    /\ JS.or_string (thought m) "" = "").
    { destruct (thought m) as [t|]; cbn; [|auto].
      destruct (JS.truthy_string t); auto. }
    destruct HT as [[HT HO]|[HT HO]]; rewrite HT, HO;
      destruct (JS.truthy_string (content m)) eqn:Tc;
      try (apply truthy_string_false in Tc; rewrite Tc);
      cbn [app].
    1-3: cbn [List.map List.filter AnthropicReply.as_block
              AnthropicReply.is_text AnthropicReply.is_thinking
              AnthropicReply.is_tool_use AnthropicReply.text_of
              AnthropicReply.thinking_of];
      rewrite R1, R2, R3; cbn [List.map JS.join String.concat]; auto.
    destruct (toolCalls m) as [|c l] eqn:El.
    - cbn. auto.
    - destruct (tool_uses_read_back l) as [L1 [L2 L3]].
      cbv zeta in L1, L2, L3.
      cbn [List.map List.filter AnthropicReply.as_block Anthropic.tool_use_of
           AnthropicReply.is_text AnthropicReply.is_thinking
           AnthropicReply.is_tool_use AnthropicReply.call_of].
      rewrite L1, L2, L3.
      cbn [List.map JS.join String.concat]. auto. }
  destruct Core as [C1 [C2 C3]].
  split; [exact C1|]. split; [exact C2|]. split; [exact C3|].
  intros Hall. rewrite C3. clear C1 C2 C3.
  induction Hall as [|c l Hc Hl IH]; [reflexivity|].
  simpl. rewrite IH. f_equal. apply with_own_id. exact Hc.
Qed.

(** ** A persisted round, seen by the Anthropic translation *)

Lemma in_flatMap {A B} (f : A -> list B) (l : list A) (a : A) (b : B) :
  In a l -> In b (f a) -> In b (JS.flatMap f l).
Proof.
  intros Ha Hb. unfold JS.flatMap. apply in_concat.
  exists (f a). split; [|exact Hb]. apply in_map_iff. eauto.
Qed.

(** X11. A round as the dispatch loop persists it is sent to Anthropic
    as a matching pair: the assistant turn holds one tool-use unit and
    the following user turn one tool-result unit, and both carry the
    same non-empty id; the tool result carries the tool's answer. *)
Theorem call_round_translates (find : option nat -> Session) (sid : nat)
    (asked answered : Message) :
  Conversation.call_round sid asked answered ->
  In asked (messages (find (Some sid))) ->
  exists id name args,
    id <> ""
    /\ Anthropic.toAnthropic find asked
       = Some {| Anthropic.mp_role := Anthropic.role_assistant;
                 Anthropic.mp_content := [Anthropic.tool_use id name args] |}
    /\ Anthropic.toAnthropic find answered
       = Some {| Anthropic.mp_role := Anthropic.role_user;
                 Anthropic.mp_content :=
                   [Anthropic.tool_result id
                      [Anthropic.text_param (content answered)]] |}.
Proof.
  intros [Hra [Hca [Hta [Hsa [Hrt [_ [Hst [call [id [Hcalls [Hid [Hne Hans]]]]]]]]]]]] Hin.
  exists id, (tc_name call), (tc_arguments call).
  split; [exact Hne|]. split.
  - unfold Anthropic.toAnthropic. rewrite Hra. f_equal.
    unfold Anthropic.assistant. rewrite Hta, Hca, Hcalls. cbn.
    unfold Anthropic.tool_use_of. rewrite Hid, or_string_some. reflexivity.
  - unfold Anthropic.toAnthropic. rewrite Hrt.
    unfold Anthropic.toolResponse, Anthropic.find_call.
    rewrite Hst, Hans. cbn zeta.
    destruct (JS.find _ _) as [c'|] eqn:F.
    + apply find_some in F. destruct F as [_ F].
      apply strict_eq_true in F. cbn [Anthropic.call_id_or_empty].
      rewrite F, or_string_some. reflexivity.
    + exfalso. rewrite find_none in F.
      assert (Hc : In call (JS.flatMap toolCalls (messages (find (Some sid))))).
      { apply (in_flatMap toolCalls _ asked); [exact Hin|].
        rewrite Hcalls. left. reflexivity. }
      specialize (F call Hc). rewrite Hid in F. simpl in F.
      rewrite String.eqb_refl in F. discriminate.
Qed.

Lemma call_round_translates_witness :
  exists id name args,
    id <> ""
    /\ Anthropic.toAnthropic Examples.sessions Examples.asking
       = Some {| Anthropic.mp_role := Anthropic.role_assistant;
                 Anthropic.mp_content := [Anthropic.tool_use id name args] |}
    /\ Anthropic.toAnthropic Examples.sessions (Examples.answer "call_1")
       = Some {| Anthropic.mp_role := Anthropic.role_user;
                 Anthropic.mp_content :=
                   [Anthropic.tool_result id [Anthropic.text_param "sunny"]] |}.
Proof.
  apply (call_round_translates Examples.sessions 1 Examples.asking
           (Examples.answer "call_1")).
  - unfold Conversation.call_round. repeat split.
    exists Examples.call_1, "call_1". repeat split. discriminate.
  - right. left. reflexivity.
Defined.

(** ** The OpenAI adapter *)

Lemma map_r_ok {A B} (f : A -> Result B) (l : list A) (ys : list B) :
  OpenAI.map_r f l = Ok ys ->
  Forall2 (fun x y => f x = Ok y) l ys.
Proof.
  revert ys. induction l as [|x l IH]; simpl; intros ys H.
  - inversion H. constructor.
  - destruct (f x) as [y|e] eqn:E; [|discriminate].
    destruct (OpenAI.map_r f l) as [ys'|e]; [|discriminate].
    inversion H; subst. constructor; auto.
Qed.

Lemma map_r_raise {A B} (f : A -> Result B) (l : list A) :
  (exists err, OpenAI.map_r f l = Raise err)
  <-> exists x err, In x l /\ f x = Raise err.
Proof.
  induction l as [|x l IH]; simpl.
  - split; [intros [e H]; discriminate|intros [x [e [[] _]]]].
  - destruct (f x) as [y|e] eqn:E.
    + destruct (OpenAI.map_r f l) as [ys|e'].
      * split; [intros [e H]; discriminate|].
        intros [x' [e [[<-|Hin] Hx]]]; [congruence|].
        destruct (proj2 IH) as [e' He']; [eauto|discriminate].
      * split; [|eauto].
        intros _. destruct (proj1 IH) as [x' [e'' [Hin Hx]]]; eauto.
    + split; [|eauto]. intros _. exists x, e. auto.
Qed.

(** X12. The OpenAI translation keeps every message of the history, a
    system message included, in order and with its content: an
    assistant message becomes an assistant entry whose tool calls are
    absent when the message has none and otherwise are its calls in
    order with their ids and names; a tool or function message becomes
    a tool entry under the message's [toolCallId]; a system message
    stays a system entry; every other role becomes a user entry. *)
Theorem openai_from_keeps_history
    (JSON_stringify : list (string * JS.value) -> string)
    (mdl : Model) (history : list Message) (tools : list Tool) :
  let sent := OpenAI.completion_messages
                (OpenAI.completion_of JSON_stringify mdl history tools) in
  length sent = length history
  /\ List.map OpenAI.param_content sent = List.map content history
  /\ (forall m,
        match role m with
        | Role.assistant =>
            exists calls,
              OpenAI.from JSON_stringify m
              = OpenAI.assistant_param (content m) calls
              /\ (toolCalls m = [] -> calls = None)
              /\ (toolCalls m <> [] ->
                  exists cs,
                    calls = Some cs
                    /\ List.map OpenAI.call_id cs = List.map tc_id (toolCalls m)
                    /\ List.map OpenAI.call_name cs
                       = List.map tc_name (toolCalls m)
                    /\ List.map OpenAI.call_arguments cs
                       = List.map (fun c => JSON_stringify (tc_arguments c))
                           (toolCalls m))
        | Role.system =>
            OpenAI.from JSON_stringify m = OpenAI.system_param (content m)
        | Role.tool | Role.function =>
            OpenAI.from JSON_stringify m
            = OpenAI.tool_param (toolCallId m) (content m)
        | _ => OpenAI.from JSON_stringify m = OpenAI.user_param (content m)
        end).
Proof.
  cbv zeta. cbn [OpenAI.completion_of OpenAI.completion_messages].
  split; [apply length_map|]. split.
  - rewrite List.map_map. apply List.map_ext. intros m.
    unfold OpenAI.from. destruct (role m); reflexivity.
  - intros m. unfold OpenAI.from. destruct (role m); try reflexivity.
    cbn. eexists. split; [reflexivity|].
    unfold OpenAI.toolCalls_param.
    destruct (toolCalls m) as [|c l]; cbn.
    + split; [reflexivity|congruence].
    + split; [discriminate|]. intros _. eexists. split; [reflexivity|].
      cbn. rewrite !List.map_map. repeat split.
Qed.

(** X13. A message returned by the OpenAI [chat] comes from the first
    choice of the response; none of its tool calls carries an id,
    whatever the provider supplied, so that the dispatch loop gives a
    fresh id to the one it handles; their names are the provider's, in
    order.  When the response has no choice, or when the arguments of
    any tool call of the first choice fail to parse, [chat] raises and
    returns no message. *)
Theorem openai_chat_ingests
    (JSON_stringify : list (string * JS.value) -> string)
    (JSON_parse : string -> Result (list (string * JS.value)))
    (create : OpenAI.Completion -> Result (list OpenAI.Choice))
    (self : OpenAI.Client) (mdl : Model) (history : list Message)
    (tools : list Tool) (options : Options) :
  let result := OpenAI.chat JSON_stringify JSON_parse create self mdl
                  history tools options in
  let request := OpenAI.completion_of JSON_stringify mdl history tools in
  (forall m,
     result = Ok m ->
     exists choice rest,
       create request = Ok (choice :: rest)
       /\ role m = OpenAI.choice_role choice
       /\ content m = JS.or_string (OpenAI.choice_content choice) ""
       /\ List.map tc_name (toolCalls m)
          = List.map OpenAI.raw_name
              (JS.nullish (OpenAI.choice_tool_calls choice) [])
       /\ (forall c, In c (toolCalls m) ->
             tc_id c = None
             /\ forall uuid4 w,
                  fst (Dispatch.ensure_id uuid4 c w)
                  = Dispatch.with_id c (uuid4 (Dispatch.uuids w))))
  /\ (create request = Ok [] -> exists err, result = Raise err)
  /\ (forall err, create request = Raise err -> result = Raise err)
  /\ (forall choice rest calls call err,
        create request = Ok (choice :: rest) ->
        OpenAI.choice_tool_calls choice = Some calls ->
        In call calls ->
        JSON_parse (OpenAI.raw_arguments call) = Raise err ->
        exists err', result = Raise err').
Proof.
  cbv zeta. unfold OpenAI.chat.
  destruct (create _) as [[|choice rest]|e] eqn:C; cbn [List.nth_error].
  - repeat split; try discriminate; eauto.
  - split; [|split; [discriminate|split; [discriminate|]]].
    + intros m Hm. exists choice, rest. split; [reflexivity|].
      destruct (OpenAI.choice_tool_calls choice) as [tcs|] eqn:T.
      * destruct (OpenAI.map_r _ tcs) as [calls|e] eqn:M; [|discriminate].
        inversion Hm; subst m; clear Hm. cbn.
        apply map_r_ok in M.
        split; [reflexivity|]. split; [reflexivity|].
        split.
        { clear - M. induction M as [|x y l l' Hxy _ IH]; [reflexivity|].
          simpl. rewrite IH. f_equal. unfold OpenAI.parse_call in Hxy.
          destruct (JSON_parse _); inversion Hxy. reflexivity. }
        intros c Hc.
        assert (Hid : tc_id c = None).
        { clear - M Hc. induction M as [|x y l l' Hxy _ IH]; [destruct Hc|].
          destruct Hc as [<-|Hc]; [|auto]. unfold OpenAI.parse_call in Hxy.
          destruct (JSON_parse _); inversion Hxy. reflexivity. }
        split; [exact Hid|]. intros uuid4 w.
        unfold Dispatch.ensure_id. rewrite Hid. reflexivity.
      * inversion Hm; subst m; clear Hm. cbn.
        repeat split; try reflexivity; destruct H.
    + intros choice' rest' calls call err H Ht Hin Hp.
      inversion H; subst choice' rest'; clear H. rewrite Ht.
      destruct (proj2 (map_r_raise (OpenAI.parse_call JSON_parse) calls))
        as [e He].
      { exists call, err. split; [exact Hin|].
        unfold OpenAI.parse_call. now rewrite Hp. }
      rewrite He. eauto.
  - repeat split; try discriminate.
    + intros err H. inversion H. reflexivity.
Qed.

(** X14. The OpenAI [connected] never raises.  With an empty credential
    it answers [false] without making a request; otherwise it makes one
    request and answers [true] exactly when the request and the
    decoding of its answer succeed and the decoded body is not [null]
    and has no [error] key of its own. *)
Theorem openai_connected (body : Result JS.value) (self : OpenAI.Client)
    (requests : nat) :
  exists answer,
    OpenAI.connected body self requests
    = (Ok answer,
       if (OpenAI.client_apiKey self =? "")%string
       then requests else S requests)
    /\ (OpenAI.client_apiKey self = "" -> answer = false)
    /\ (answer = true
        <-> OpenAI.client_apiKey self <> ""
            /\ exists v, body = Ok v /\ OpenAI.hasOwn v "error" = Ok false).
Proof.
  unfold OpenAI.connected.
  destruct (String.eqb_spec (OpenAI.client_apiKey self) "") as [K|K].
  - exists false. cbn. split; [reflexivity|]. split; [reflexivity|].
    split; [discriminate|]. intros [H _]. contradiction.
  - destruct body as [v|e]; cbn.
    + destruct (OpenAI.hasOwn v "error") as [[|]|e] eqn:H; cbn.
      * exists false. split; [reflexivity|]. split; [reflexivity|].
        split; [discriminate|]. intros [_ [v' [Hv H']]].
        inversion Hv; subst v'. congruence.
      * exists true. split; [reflexivity|]. split; [contradiction|].
        split; [|reflexivity]. intros _. split; [exact K|]. eauto.
      * exists false. split; [reflexivity|]. split; [reflexivity|].
        split; [discriminate|]. intros [_ [v' [Hv H']]].
        inversion Hv; subst v'. congruence.
    + exists false. split; [reflexivity|]. split; [reflexivity|].
      split; [discriminate|]. intros [_ [v' [Hv _]]]. discriminate.
Qed.

(** ** Gemini messages and requests *)

Section GeminiFacts.

Variable Session_find : option nat -> Session.
Variable fromAny : Message -> option GeminiChat.Content.

Local Abbreviation from := (GeminiChat.from Session_find fromAny).


(** X16. The Gemini request carries a system instruction exactly when
    the history has a system message, and then it is the contents of
    the system messages in order with a blank line between them, empty
    or not; its contents are built from the other messages only; the
    temperature is passed as given, without clamping; and the tools are
    left out when there are none. *)
Theorem gemini_request_config (history : list Message)
    (tools : option (list Tool)) (options : option Options) :
  let sent := GeminiChat.request Session_find fromAny history tools options in
  fst sent = JS.compact (List.map from (spec_non_system history))
  /\ (GeminiChat.systemInstruction (snd sent) = None
      <-> forall m, In m history -> role m <> Role.system)
  /\ (forall text, GeminiChat.systemInstruction (snd sent) = Some text ->
        text = spec_blank_line_joined (spec_system_contents history))
  /\ GeminiChat.config_temperature (snd sent)
     = match options with Some o => temperature o | None => None end
  /\ (GeminiChat.config_tools (snd sent) = None
      <-> tools = None \/ tools = Some [])
  /\ (forall declared, GeminiChat.config_tools (snd sent) = Some declared ->
        exists ts, tools = Some ts
                   /\ declared = [List.map Gemini.fromOne ts]).
Proof.
  cbv zeta. unfold GeminiChat.request. cbn [fst snd
    GeminiChat.systemInstruction GeminiChat.config_temperature
    GeminiChat.config_tools].
  split; [reflexivity|].
  assert (Sys : forall h : list Message,
            List.filter (fun m => Role.eqb (role m) Role.system) h = []
            <-> forall m, In m h -> role m <> Role.system).
  { induction h as [|x h IH]; simpl.
    - split; [intros _ m []|reflexivity].
    - destruct (Role.eqb (role x) Role.system) eqn:E.
      + split; [discriminate|]. intros H. apply role_eqb_eq in E.
        destruct (H x (or_introl eq_refl) E).
      + rewrite IH. split.
        * intros H m [<-|Hm]; [|auto]. intros Hr.
          apply role_eqb_eq in Hr. congruence.
        * intros H m Hm. apply H. now right. }
  split.
  - rewrite <- Sys.
    destruct (List.filter _ history) as [|x l]; cbn;
      split; intros; congruence.
  - split.
    + intros text. destruct (0 <? length _)%nat; [|discriminate].
      intros H. inversion H. apply (chat_system_spec history).
    + split; [reflexivity|]. split.
      * destruct tools as [[|t ts]|]; cbn; split; intros;
          try reflexivity; try discriminate; auto.
        destruct H as [H|H]; discriminate.
      * intros declared. destruct tools as [[|t ts]|]; cbn;
          try discriminate.
        intros H. inversion H. eauto.
Qed.

End GeminiFacts.

(** ** Replies of Ollama *)

Lemma append_empty_r (s : string) : (s ++ "")%string = s.
Proof.
  induction s as [|a s IH]; [reflexivity|].
  change (String a (s ++ "")%string = String a s). now rewrite IH.
Qed.

Lemma append_assoc3 (a b c : string) :
  ((a ++ b) ++ c)%string = (a ++ (b ++ c))%string.
Proof.
  induction a as [|x a IH]; [reflexivity|].
  change (String x ((a ++ b) ++ c)%string = String x (a ++ (b ++ c))%string).
  now rewrite IH.
Qed.

Lemma split_without_separator (separator s piece : string) :
  JS.includes separator s = false ->
  Ollama.split_from separator s 0 piece = [(piece ++ s)%string].
Proof.
  revert piece. induction s as [|a s IH]; intros piece H.
  - simpl. now rewrite append_empty_r.
  - cbn [JS.includes] in H. apply orb_false_iff in H. destruct H as [Hp Hi].
    cbn [Ollama.split_from]. rewrite Hp, (IH _ Hi), append_assoc3.
    reflexivity.
Qed.

Lemma append_cons (a : ascii) (s t : string) :
  (String a s ++ t)%string = String a (s ++ t)%string.
Proof. reflexivity. Qed.

Lemma drop_trailing_last (c : ascii) (s : string) :
  Ollama.drop_trailing c (s ++ String c "")%string = s.
Proof.
  induction s as [|a s IH].
  - change (Ollama.drop_trailing c (String c "") = "").
    cbn [Ollama.drop_trailing]. now rewrite Ascii.eqb_refl.
  - rewrite append_cons. destruct s as [|b s].
    + change (Ollama.drop_trailing c (String a (String c "")) = String a "").
      cbn [Ollama.drop_trailing]. now rewrite Ascii.eqb_refl.
    + rewrite append_cons in *. cbn [Ollama.drop_trailing] in *.
      now rewrite IH.
Qed.

Lemma drop_trailing_other (c : ascii) (s : string) :
  (forall t, s <> (t ++ String c "")%string) ->
  Ollama.drop_trailing c s = s.
Proof.
  induction s as [|a s IH]; intros H; [reflexivity|].
  destruct s as [|b s].
  - cbn [Ollama.drop_trailing].
    destruct (Ascii.eqb_spec a c) as [->|_]; [|reflexivity].
    exfalso. exact (H EmptyString eq_refl).
  - cbn [Ollama.drop_trailing] in *. rewrite IH; [reflexivity|].
    intros t E. apply (H (String a t)). rewrite append_cons. now rewrite <- E.
Qed.

Lemma drop_leading_other (c : ascii) (s : string) :
  (forall t, s <> String c t) -> Ollama.drop_leading c s = s.
Proof.
  intros H. destruct s as [|a s]; [reflexivity|].
  cbn [Ollama.drop_leading].
  destruct (Ascii.eqb_spec a c) as [->|_]; [|reflexivity].
  exfalso. exact (H s eq_refl).
Qed.

(** X17. The text of an Ollama response is first cleaned: a final
    period goes, then a leading double quote, then a final double
    quote, each at most once, and a text without them is unchanged.
    Without [<think>] in the cleaned text, the message has no thought
    and the cleaned text as content, untrimmed.  With a [<think>] that
    no [</think>] closes, building the message raises.  A message that
    is built is an assistant message with the response's tool calls
    (none when the response has no such field), and has a thought
    exactly when the cleaned text contains [<think>]. *)
Theorem ollama_thinking_extraction (trim : string -> string) (mdl : Model)
    (response : Ollama.Response) :
  let cleaned := Ollama.clean (Ollama.response_content response) in
  let double_quote := Ascii.ascii_of_nat 34 in
  (JS.includes "<think>" cleaned = false ->
   exists m,
     Ollama.ingest trim mdl response = Ok m
     /\ content m = cleaned /\ thought m = None)
  /\ (JS.includes "<think>" cleaned = true ->
      JS.includes "</think>" cleaned = false ->
      exists err, Ollama.ingest trim mdl response = Raise err)
  /\ (forall m,
        Ollama.ingest trim mdl response = Ok m ->
        role m = Role.assistant
        /\ msg_model m = Some (model_name mdl)
        /\ toolCalls m = JS.nullish (Ollama.response_tool_calls response) []
        /\ (thought m = None <-> JS.includes "<think>" cleaned = false))
  /\ (forall text,
        Ollama.clean text
        = Ollama.drop_trailing double_quote
            (Ollama.drop_leading double_quote
               (Ollama.drop_trailing "."%char text)))
  /\ (forall c s, Ollama.drop_trailing c (s ++ String c "")%string = s)
  /\ (forall c s,
        (forall t, s <> (t ++ String c "")%string) ->
        Ollama.drop_trailing c s = s)
  /\ (forall c s, Ollama.drop_leading c (String c s) = s)
  /\ (forall c s,
        (forall t, s <> String c t) -> Ollama.drop_leading c s = s).
Proof.
  cbv zeta.
  assert (Cleaning :
    (forall text,
        Ollama.clean text
        = Ollama.drop_trailing (Ascii.ascii_of_nat 34)
            (Ollama.drop_leading (Ascii.ascii_of_nat 34)
               (Ollama.drop_trailing "."%char text)))
    /\ (forall c s, Ollama.drop_trailing c (s ++ String c "")%string = s)
    /\ (forall c s,
          (forall t, s <> (t ++ String c "")%string) ->
          Ollama.drop_trailing c s = s)
    /\ (forall c s, Ollama.drop_leading c (String c s) = s)
    /\ (forall c s,
          (forall t, s <> String c t) -> Ollama.drop_leading c s = s)).
  { split; [reflexivity|].
    split; [apply drop_trailing_last|].
    split; [apply drop_trailing_other|].
    split; [|apply drop_leading_other].
    intros c s. cbn [Ollama.drop_leading]. now rewrite Ascii.eqb_refl. }
  unfold Ollama.ingest.
  destruct (JS.includes "<think>" _) eqn:T.
  - split; [discriminate|]. split; [|split; [|exact Cleaning]].
    + intros _ Hc. unfold Ollama.split.
      rewrite (split_without_separator _ _ _ Hc). cbn. eauto.
    + intros m.
      destruct (List.nth_error _ 0) as [thought|]; [|discriminate].
      destruct (List.nth_error _ 1) as [rest|]; [|discriminate].
      intros H. inversion H; subst m; clear H. cbn.
      repeat split; try discriminate.
  - split; [intros _; eexists; repeat split|].
    split; [discriminate|]. split; [|exact Cleaning].
    intros m H. inversion H; subst m; clear H. cbn. repeat split.
Qed.

Lemma ollama_thinking_extraction_witness :
  exists err,
    Ollama.ingest (fun s => s) Examples.claude
      {| Ollama.response_content := "<think>let me see";
         Ollama.response_tool_calls := None |}
    = Raise err.
Proof.
  exact (proj1 (proj2 (ollama_thinking_extraction (fun s => s) Examples.claude
                         {| Ollama.response_content := "<think>let me see";
                            Ollama.response_tool_calls := None |}))
               eq_refl eq_refl).
Defined.

(** ** Tool retrieval *)

(** X18. The tools of a session are the ones the MCP layer reports, in
    order and as many, each with its name, description, required list
    and properties and with the schema type [object]; a failure of the
    MCP layer is raised unchanged.  On such tools the Anthropic
    translation changes nothing: the function it sends has the tool's
    own name, description and parameters. *)
Theorem mcp_tools_pass_through
    (get_mcp_tools : nat -> Result (list Mcp.McpTool)) (sid : nat) :
  match get_mcp_tools sid with
  | Raise err => Mcp.getMcpTools get_mcp_tools sid = Raise err
  | Ok found =>
      exists tools,
        Mcp.getMcpTools get_mcp_tools sid = Ok tools
        /\ List.map tool_name tools = List.map Mcp.mcp_name found
        /\ List.map tool_description tools
           = List.map Mcp.mcp_description found
        /\ List.map (fun t => required (parameters t)) tools
           = List.map (fun t => Mcp.schema_required (Mcp.inputSchema t)) found
        /\ List.map (fun t => properties (parameters t)) tools
           = List.map (fun t => Mcp.schema_properties (Mcp.inputSchema t)) found
        /\ List.map Anthropic.at_function (Anthropic.toAnthropicTools tools)
           = List.map
               (fun t => {| Anthropic.tf_name := tool_name t;
                            Anthropic.tf_description := tool_description t;
                            Anthropic.tf_parameters := parameters t |})
               tools
  end.
Proof.
  unfold Mcp.getMcpTools.
  destruct (get_mcp_tools sid) as [found|err]; [|reflexivity].
  eexists. split; [reflexivity|].
  rewrite !List.map_map. cbn.
  repeat split.
  unfold Anthropic.toAnthropicTools. rewrite !List.map_map. reflexivity.
Qed.

(** ** Resolution of the adapter of an engine *)

(** X19. The [client] getter builds the adapter of the engine's kind
    from the engine's options and id: Ollama for [ollama], Gemini for
    [gemini], OpenAI for both [openai] and [openai-compat].  A
    constructor that raises leaves the engine without adapter.  No
    other kind resolves to an adapter: the kind [constructor], and no
    other, resolves to the plain object of the options and the id,
    built by the [Object] that the table inherits under that name, and
    every kind besides these five resolves to nothing. *)
Theorem client_resolution
    (Ollama OpenAI Gemini : ClientProps -> Result Registry.Client)
    (e : Registry.Engine) :
  let props := {| apiKey := Registry.opt_apiKey (Registry.engine_options e);
                  url := Registry.opt_url (Registry.engine_options e);
                  props_engineId := Registry.engine_id e |} in
  let built (r : Result Registry.Client) :=
    match r with Ok c => Some (Registry.Adapter c) | Raise _ => None end in
  (Registry.engine_type e = "ollama" ->
   Registry.client Ollama OpenAI Gemini e = built (Ollama props))
  /\ (Registry.engine_type e = "openai"
      \/ Registry.engine_type e = "openai-compat" ->
      Registry.client Ollama OpenAI Gemini e = built (OpenAI props))
  /\ (Registry.engine_type e = "gemini" ->
      Registry.client Ollama OpenAI Gemini e = built (Gemini props))
  /\ (forall c,
        Registry.client Ollama OpenAI Gemini e = Some (Registry.Adapter c) ->
        In (Registry.engine_type e)
           ["ollama"; "openai"; "gemini"; "openai-compat"])
  /\ (Registry.engine_type e = "constructor" ->
      Registry.client Ollama OpenAI Gemini e = Some (Registry.Plain props))
  /\ (forall plain,
        Registry.client Ollama OpenAI Gemini e = Some (Registry.Plain plain) ->
        Registry.engine_type e = "constructor" /\ plain = props)
  /\ (~ In (Registry.engine_type e)
          ["ollama"; "openai"; "gemini"; "openai-compat"; "constructor"] ->
      Registry.client Ollama OpenAI Gemini e = None).
Proof.
  cbv zeta.
  split; [intros K; unfold Registry.client, JS.get; rewrite K; cbn;
          destruct (Ollama _); reflexivity|].
  split; [intros [K | K]; unfold Registry.client, JS.get; rewrite K; cbn;
          destruct (OpenAI _); reflexivity|].
  split; [intros K; unfold Registry.client, JS.get; rewrite K; cbn;
          destruct (Gemini _); reflexivity|].
  split; [|split; [|split]].
  - intros c Hc.
    destruct (in_dec String.string_dec (Registry.engine_type e)
                ["ollama"; "openai"; "gemini"; "openai-compat"]) as [I|I];
      [exact I|exfalso].
    destruct (String.eqb_spec (Registry.engine_type e) "constructor")
      as [K|K].
    + rewrite (client_constructor_kind Ollama OpenAI Gemini e K) in Hc.
      discriminate Hc.
    + rewrite (client_unknown_kind Ollama OpenAI Gemini e I K) in Hc.
      discriminate Hc.
  - apply client_constructor_kind.
  - intros plain Hp.
    pose proof (client_plain_kind Ollama OpenAI Gemini e plain Hp) as K.
    split; [exact K|].
    rewrite (client_constructor_kind Ollama OpenAI Gemini e K) in Hp.
    now injection Hp as <-.
  - intros I. apply client_unknown_kind.
    + intros J. apply I. simpl in *. tauto.
    + intros K. apply I. do 4 right. left. symmetry. exact K.
Qed.

(** ** Replies of Gemini *)

(** X20. The Gemini [chat] raises a failure of the provider unchanged.
    The message it returns is an assistant message whose content is the
    response's text, or empty when there is none, and whose tool calls
    are the response's function calls in order, each with the
    provider's name, the provider's arguments or an empty mapping, and
    no id, so that the dispatch loop gives a fresh id to the one it
    handles. *)
Theorem gemini_chat_ingests
    (find : option nat -> Session)
    (fromAny : Message -> option GeminiChat.Content)
    (generate : string -> list GeminiChat.Content -> GeminiChat.Config ->
                Result GeminiChat.Response)
    (mdl : Model) (history : list Message) (tools : option (list Tool))
    (options : option Options) :
  let sent := GeminiChat.request find fromAny history tools options in
  let result := GeminiChat.chat find fromAny generate mdl history tools options in
  (forall err,
     generate (model_name mdl) (fst sent) (snd sent) = Raise err ->
     result = Raise err)
  /\ (forall m,
        result = Ok m ->
        exists response,
          generate (model_name mdl) (fst sent) (snd sent) = Ok response
          /\ role m = Role.assistant
          /\ content m = JS.or_string (GeminiChat.response_text response) ""
          /\ List.map tc_name (toolCalls m)
             = List.map GeminiChat.fc_name
                 (JS.nullish (GeminiChat.functionCalls response) [])
          /\ List.map tc_arguments (toolCalls m)
             = List.map (fun fc => JS.nullish (GeminiChat.fc_args fc) [])
                 (JS.nullish (GeminiChat.functionCalls response) [])
          /\ (forall c, In c (toolCalls m) ->
                tc_id c = None
                /\ forall uuid4 w,
                     fst (Dispatch.ensure_id uuid4 c w)
                     = Dispatch.with_id c (uuid4 (Dispatch.uuids w)))).
Proof.
  cbv zeta. unfold GeminiChat.chat.
  destruct (GeminiChat.request find fromAny history tools options)
    as [contents cfg]. cbn [fst snd].
  destruct (generate (model_name mdl) contents cfg) as [response|e].
  - split; [discriminate|]. intros m H. inversion H; subst m; clear H.
    exists response. split; [reflexivity|].
    unfold GeminiChat.ingest. cbn [role content toolCalls].
    split; [reflexivity|]. split; [reflexivity|].
    destruct (GeminiChat.functionCalls response) as [fcs|]; cbn [JS.nullish].
    + rewrite !List.map_map. cbn. split; [reflexivity|]. split; [reflexivity|].
      intros c Hc. apply in_map_iff in Hc. destruct Hc as [fc [<- _]].
      split; [reflexivity|]. intros uuid4 w. reflexivity.
    + split; [reflexivity|]. split; [reflexivity|]. intros c [].
  - split; [|discriminate]. intros err H. inversion H. reflexivity.
Qed.

(** ** A persisted round, seen by the Gemini translation *)

(** X21. A round as the dispatch loop persists it is sent to Gemini as
    a model entry with one function call carrying the id, the name and
    the arguments of the one call of the asking message, followed by a
    user entry with one function response carrying the tool's answer;
    the response names the tool of that call provided every call of the
    session with that id has that name. *)
Theorem call_round_translates_gemini (find : option nat -> Session)
    (fromAny : Message -> option GeminiChat.Content) (sid : nat)
    (asked answered : Message) :
  Conversation.call_round sid asked answered ->
  In asked (messages (find (Some sid))) ->
  exists call id,
    toolCalls asked = [call]
    /\ tc_id call = Some id
    /\ toolCallId answered = Some id
    /\ id <> ""
    /\ GeminiChat.from find fromAny asked
       = Some {| GeminiChat.content_role := "model";
                 GeminiChat.parts :=
                   [GeminiChat.functionCall_part (Some id) (tc_name call)
                      (tc_arguments call)] |}
    /\ ((forall c, In c (JS.flatMap toolCalls (messages (find (Some sid)))) ->
                   tc_id c = Some id -> tc_name c = tc_name call) ->
        GeminiChat.from find fromAny answered
        = Some {| GeminiChat.content_role := "user";
                  GeminiChat.parts :=
                    [GeminiChat.functionResponse_part (Some (tc_name call))
                       (content answered)] |}).
Proof.
  intros [Hra [Hca [Hta [Hsa [Hrt [_ [Hst [call [id [Hcalls [Hid [Hne Hans]]]]]]]]]]]] Hin.
  exists call, id.
  split; [exact Hcalls|]. split; [exact Hid|]. split; [exact Hans|].
  split; [exact Hne|]. split.
  - unfold GeminiChat.from. rewrite Hra, Hca. cbn.
    unfold GeminiChat.fromToolCall. rewrite Hcalls, Hid. reflexivity.
  - intros Hsame. unfold GeminiChat.from. rewrite Hrt. cbn.
    unfold GeminiChat.fromToolResponse. rewrite Hst, Hans. cbv zeta.
    destruct (JS.find _ _) as [c'|] eqn:F.
    + apply find_some in F. destruct F as [Hc' F].
      apply strict_eq_true in F. rewrite (Hsame c' Hc' F). reflexivity.
    + exfalso. rewrite find_none in F.
      assert (Hc : In call (JS.flatMap toolCalls (messages (find (Some sid))))).
      { apply (in_flatMap toolCalls _ asked); [exact Hin|].
        rewrite Hcalls. left. reflexivity. }
      specialize (F call Hc). rewrite Hid in F. simpl in F.
      rewrite String.eqb_refl in F. discriminate.
Qed.

Lemma call_round_translates_gemini_witness :
  GeminiChat.from Examples.sessions (fun _ => None) Examples.asking
  = Some {| GeminiChat.content_role := "model";
            GeminiChat.parts :=
              [GeminiChat.functionCall_part (Some "call_1") "get_weather"
                 [("location", JS.JStr "NYC")]] |}
  /\ GeminiChat.from Examples.sessions (fun _ => None)
       (Examples.answer "call_1")
     = Some {| GeminiChat.content_role := "user";
               GeminiChat.parts :=
                 [GeminiChat.functionResponse_part (Some "get_weather")
                    "sunny"] |}.
Proof.
  destruct (call_round_translates_gemini Examples.sessions (fun _ => None) 1
              Examples.asking (Examples.answer "call_1"))
    as [call [id [Hcalls [Hid [_ [_ [Hask Hans]]]]]]].
  - unfold Conversation.call_round. repeat split.
    exists Examples.call_1, "call_1". repeat split. discriminate.
  - right. left. reflexivity.
  - inversion Hcalls; subst call. inversion Hid; subst id.
    split; [exact Hask|]. apply Hans.
    intros c [<-|[]] _. reflexivity.
Defined.
